(** * googlemaps.py: the scroll loop, the extractor and the CSV writer

    A shallow embedding of [GoogleMapsScraper] (src/googlemaps.py).

    - Python [str] values are lists of code points, so that [str.split]
      and [str.strip] can be written out as Python defines them.
    - [business_data] dictionaries are insertion-ordered association lists.
    - The browser (selenium), the HTML parser (bs4) and the run-time
      services (time, random, urllib, traceback) are interfaces; the code of
      the scraper is written once, over any implementation of them.
    - Effects are threaded through a state-and-exception monad; the only
      unbounded loop, [while True] in [search_and_scrape], takes fuel. *)

From Stdlib Require Import List NArith ZArith Arith Bool Lia String Ascii.
From Stdlib Require Import DecimalString Sorted.
Import ListNotations.

(* ------------------------------------------------------------------ *)
(** ** Python strings *)

Module PyStr.

Definition pystr := list N.

(** A literal of the source, for its ASCII literals. *)
Definition py (s : string) : pystr :=
  map N_of_ascii (list_ascii_of_string s).

(** The double quote, for the literals of the source that hold one. *)
Definition dquote : pystr := [34%N].

(** The separator of [address_container.text.split('·')]: U+00B7. *)
Definition middle_dot : pystr := [183%N].

Fixpoint eqb (a b : pystr) : bool :=
  match a, b with
  | [], [] => true
  | x :: a', y :: b' => N.eqb x y && eqb a' b'
  | _, _ => false
  end.

(** [str.isspace] on one character. *)
Definition isspace (c : N) : bool :=
  ((9 <=? c) && (c <=? 13) || (28 <=? c) && (c <=? 32)
   || (c =? 133) || (c =? 160) || (c =? 5760)
   || (8192 <=? c) && (c <=? 8202)
   || (c =? 8232) || (c =? 8233) || (c =? 8239) || (c =? 8287)
   || (c =? 12288))%N.

Fixpoint lstrip (s : pystr) : pystr :=
  match s with
  | c :: s' => if isspace c then lstrip s' else s
  | [] => []
  end.

Definition rstrip (s : pystr) : pystr := rev (lstrip (rev s)).

(** [s.strip()] *)
Definition strip (s : pystr) : pystr := lstrip (rstrip s).

Fixpoint starts_with (p s : pystr) : bool :=
  match p, s with
  | [], _ => true
  | a :: p', b :: s' => N.eqb a b && starts_with p' s'
  | _ :: _, [] => false
  end.

(** [s.split(sep)] for a non-empty [sep] (Python raises [ValueError] on an
    empty one): [cur] is the segment being read, reversed; [skip] counts the
    characters of a separator still to be passed over. *)
Fixpoint split_from (sep : pystr) (skip : nat) (cur s : pystr) : list pystr :=
  match s with
  | [] => [rev cur]
  | c :: s' =>
      match skip with
      | S k => split_from sep k cur s'
      | O =>
          if starts_with sep s
          then rev cur :: split_from sep (List.length sep - 1) [] s'
          else split_from sep 0 (c :: cur) s'
      end
  end.

Definition split (sep s : pystr) : list pystr := split_from sep 0 [] s.

(** [str(n)] for a length. *)
Definition str_of_nat (n : nat) : pystr :=
  py (NilEmpty.string_of_uint (Nat.to_uint n)).

End PyStr.
Import PyStr.

Declare Scope py_scope.
Delimit Scope py_scope with py.
Notation "a =? b" := (PyStr.eqb a b) : py_scope.

(* ------------------------------------------------------------------ *)
(** ** Dictionaries with string keys *)

Module Dict.

Section Assoc.
Variable V : Type.

Definition t := list (pystr * V).

(** [d.get(k)] *)
Fixpoint get (k : pystr) (d : t) : option V :=
  match d with
  | [] => None
  | (k', v) :: d' => if (k' =? k)%py then Some v else get k d'
  end.

(** [d[k] = v]: the value is replaced in place, a new key goes last. *)
Fixpoint set (k : pystr) (v : V) (d : t) : t :=
  match d with
  | [] => [(k, v)]
  | (k', v') :: d' =>
      if (k' =? k)%py then (k', v) :: d' else (k', v') :: set k v d'
  end.

(** [d.update(other)] *)
Definition update (other : t) (d : t) : t :=
  fold_left (fun acc kv => set (fst kv) (snd kv) acc) other d.

Definition keys (d : t) : list pystr := map fst d.

(** [k in d] *)
Definition mem (k : pystr) (d : t) : bool :=
  match get k d with Some _ => true | None => false end.
End Assoc.

Arguments get {V} k d.
Arguments set {V} k v d.
Arguments update {V} other d.
Arguments keys {V} d.
Arguments mem {V} k d.

End Dict.

Definition dict := Dict.t pystr.


(* ------------------------------------------------------------------ *)
(** ** Exceptions, the log and the written files *)

(** An exception is carried as its message, [str(e)]; every exception of
    the model is an [Exception], the class the handlers of the source
    catch. *)
Definition exn := pystr.

Inductive outcome (A : Type) : Type :=
| Ok (a : A)
| Raise (e : exn).

Arguments Ok {A} a.
Arguments Raise {A} e.

Inductive level := INFO | WARNING | ERROR | CRITICAL.

(** One call of [logger.info], [logger.warning], ...: both handlers of
    [logging.basicConfig] receive the same lines, in this order. *)
Definition log_line := (level * pystr)%type.

(** What [to_csv] leaves in a file: the header row and the data rows. *)
Record csv := mk_csv { header : list pystr; body : list (list pystr) }.

(* ------------------------------------------------------------------ *)
(** ** pandas: the operations [save_to_csv] calls *)

Module Pandas.

(** A cell holds a string, or NaN where the record has no such key. *)
Definition cell := option pystr.

Record DataFrame := mk_df { columns : list pystr; values : list (list cell) }.

Definition cell_eq_dec (a b : cell) : {a = b} + {a <> b}.
Proof. repeat decide equality. Defined.

Definition key_eq_dec (a b : list cell) : {a = b} + {a <> b} :=
  list_eq_dec cell_eq_dec a b.

(** [col in df.columns] *)
Definition has_column (col : pystr) (cols : list pystr) : bool :=
  existsb (fun c => (c =? col)%py) cols.

Fixpoint index_of (col : pystr) (cols : list pystr) : option nat :=
  match cols with
  | [] => None
  | c :: cols' =>
      if (c =? col)%py then Some 0
      else option_map S (index_of col cols')
  end.

Fixpoint indices (subset cols : list pystr) : option (list nat) :=
  match subset with
  | [] => Some []
  | c :: subset' =>
      match index_of c cols, indices subset' cols with
      | Some i, Some idx => Some (i :: idx)
      | _, _ => None
      end
  end.

Definition add_key (cols : list pystr) (k : pystr) : list pystr :=
  if has_column k cols then cols else cols ++ [k].

(** The columns of [pd.DataFrame(records)]: the keys of the records, each
    at its first appearance. *)
Definition union_keys (records : list dict) : list pystr :=
  fold_left (fun cols d => fold_left add_key (Dict.keys d) cols) records [].

(** [pd.DataFrame(records)] for a list of dictionaries. *)
Definition from_records (records : list dict) : DataFrame :=
  let cols := union_keys records in
  mk_df cols (map (fun d => map (fun c => Dict.get c d) cols) records).

Fixpoint replace_nth (i : nat) (v : cell) (row : list cell) : list cell :=
  match row, i with
  | [], _ => []
  | _ :: row', O => v :: row'
  | c :: row', S j => c :: replace_nth j v row'
  end.

(** [df[col] = v] for a scalar [v]: an existing column is overwritten, a
    new one is added last. *)
Definition setitem (col : pystr) (v : pystr) (df : DataFrame) : DataFrame :=
  match index_of col (columns df) with
  | Some i => mk_df (columns df) (map (replace_nth i (Some v)) (values df))
  | None =>
      mk_df (columns df ++ [col]) (map (fun row => row ++ [Some v]) (values df))
  end.

Definition take (idx : list nat) (row : list cell) : list cell :=
  map (fun i => nth i row None) idx.

(** [df[cols]] for a list of labels; [KeyError] when one is missing. *)
Definition getitem (cols : list pystr) (df : DataFrame) : outcome DataFrame :=
  match indices cols (columns df) with
  | Some idx => Ok (mk_df cols (map (take idx) (values df)))
  | None => Raise (py "KeyError")
  end.

(** The rows [duplicated(subset, keep='first')] does not mark: a row is
    kept when no earlier row has the same cells in the [subset] columns
    (two NaN count as equal). *)
Fixpoint keep_first (idx : list nat) (seen : list (list cell))
    (rows : list (list cell)) : list (list cell) :=
  match rows with
  | [] => []
  | row :: rows' =>
      if in_dec key_eq_dec (take idx row) seen
      then keep_first idx seen rows'
      else row :: keep_first idx (take idx row :: seen) rows'
  end.

(** [df.drop_duplicates(subset=..., keep='first')] *)
Definition drop_duplicates (subset : list pystr) (df : DataFrame)
  : outcome DataFrame :=
  match indices subset (columns df) with
  | Some idx => Ok (mk_df (columns df) (keep_first idx [] (values df)))
  | None => Raise (py "KeyError")
  end.

(** [len(df)] *)
Definition len (df : DataFrame) : nat := List.length (values df).

(** The text of a cell in the file: [na_rep] is the empty string. *)
Definition render (c : cell) : pystr :=
  match c with Some s => s | None => [] end.

(** The table [df.to_csv(filename, index=False)] writes. *)
Definition to_csv (df : DataFrame) : csv :=
  mk_csv (columns df) (map (map render) (values df)).

End Pandas.

(* ------------------------------------------------------------------ *)
(** ** The interfaces the scraper is written against *)

(** [By.XPATH], [By.CSS_SELECTOR], [By.TAG_NAME] *)
Inductive By := XPATH | CSS_SELECTOR | TAG_NAME.

Definition locator := (By * pystr)%type.

(** The browser session and the run-time services.  [world] is everything
    outside the process: the page, the network, the clock.  Each call takes
    the world to a new one and returns or raises. *)
Class Platform := {
  world : Type;
  WebElement : Type;
  (** [webdriver.Chrome(...)] followed by the [execute_script] of
      [setup_selenium_driver] *)
  webdriver_Chrome : world -> outcome unit * world;
  (** [driver.get(url)] *)
  driver_get : pystr -> world -> outcome unit * world;
  (** [WebDriverWait(driver, t).until(EC.element_to_be_clickable(loc))] *)
  until_element_to_be_clickable :
    Z -> locator -> world -> outcome WebElement * world;
  (** [element.click()] *)
  click : WebElement -> world -> outcome unit * world;
  (** [WebDriverWait(driver, t).until(EC.url_contains(s))] *)
  until_url_contains : Z -> pystr -> world -> outcome unit * world;
  (** [WebDriverWait(driver, t).until(EC.presence_of_element_located(loc))] *)
  until_presence_of_element_located :
    Z -> locator -> world -> outcome WebElement * world;
  (** [driver.find_element(by, value)] *)
  find_element : locator -> world -> outcome WebElement * world;
  (** [driver.execute_script("return arguments[0].scrollHeight", el)] *)
  script_scrollHeight : WebElement -> world -> outcome Z * world;
  (** [driver.execute_script("arguments[0].scrollTop = arguments[0].scrollHeight", el)] *)
  script_scroll_to_bottom : WebElement -> world -> outcome unit * world;
  (** [driver.page_source] *)
  driver_page_source : world -> outcome pystr * world;
  (** [driver.quit()] *)
  driver_quit : world -> outcome unit * world;
  (** [time.sleep(random.uniform(a, b))] *)
  sleep_uniform : Z -> Z -> world -> world;
  (** [time.strftime(format)] *)
  strftime : pystr -> world -> pystr;
  (** [urllib.parse.quote(s)] *)
  quote : pystr -> outcome pystr;
  (** [traceback.format_exc()] in the handler of [e] *)
  format_exc : exn -> pystr
}.

(** The two ways the source selects a tag: an attribute matched by a
    regular expression, and [class_=...]. *)
Inductive selector :=
| attr_regex (attr pattern : pystr)
| class_ (name : pystr).

(** bs4 with ['html.parser']. *)
Class HtmlParser := {
  Tag : Type;
  (** [BeautifulSoup(markup, 'html.parser')] *)
  BeautifulSoup : pystr -> Tag;
  (** [tag.find_all(name, selector)], in document order *)
  find_all : Tag -> pystr -> selector -> list Tag;
  (** [tag.text] *)
  text : Tag -> pystr
}.

(** [tag.find(name, selector)]: the first result of [find_all], or [None]. *)
Definition find `{HtmlParser} (t : Tag) (name : pystr) (sel : selector)
  : option Tag :=
  hd_error (find_all t name sel).

(* ------------------------------------------------------------------ *)
(** ** The state-and-exception monad *)

Section Monad.
Context `{Platform}.

Record state := mk_state {
  browser : world;
  files : Dict.t csv;
  log : list log_line
}.

(** A computation returns a value or raises, in a new state; [None] is a
    [while True] that was still running when the fuel ran out. *)
Definition M (A : Type) : Type := state -> option (outcome A * state).

Definition ret {A} (a : A) : M A := fun st => Some (Ok a, st).

Definition bind {A B} (m : M A) (f : A -> M B) : M B :=
  fun st =>
    match m st with
    | Some (Ok a, st') => f a st'
    | Some (Raise e, st') => Some (Raise e, st')
    | None => None
    end.

(** [raise e] *)
Definition raise {A} (e : exn) : M A := fun st => Some (Raise e, st).

(** [try: m except Exception as e: handler e] *)
Definition try_except {A} (m : M A) (handler : exn -> M A) : M A :=
  fun st =>
    match m st with
    | Some (Raise e, st') => handler e st'
    | r => r
    end.

(** [try: m finally: cleanup] *)
Definition try_finally {A} (m : M A) (cleanup : M unit) : M A :=
  fun st =>
    match m st with
    | Some (r, st') =>
        match cleanup st' with
        | Some (Ok _, st'') => Some (r, st'')
        | Some (Raise e, st'') => Some (Raise e, st'')
        | None => None
        end
    | None => None
    end.

(** The loop did not stop within the fuel. *)
Definition out_of_fuel {A} : M A := fun _ => None.

(** A call into the browser or the run time. *)
Definition call {A} (op : world -> outcome A * world) : M A :=
  fun st =>
    let (r, w) := op (browser st) in
    Some (r, mk_state w (files st) (log st)).

(** A library call that leaves the world alone and may raise. *)
Definition pure_call {A} (r : outcome A) : M A := fun st => Some (r, st).

Definition sleep (a b : Z) : M unit :=
  fun st => Some (Ok tt, mk_state (sleep_uniform a b (browser st)) (files st) (log st)).

Definition now (format : pystr) : M pystr :=
  fun st => Some (Ok (strftime format (browser st)), st).

(** [logger.info(msg)], [logger.warning(msg)], ... *)
Definition logger (lvl : level) (msg : pystr) : M unit :=
  fun st => Some (Ok tt, mk_state (browser st) (files st) (log st ++ [(lvl, msg)])).

(** Opening [filename] for writing and filling it. *)
Definition write_file (filename : pystr) (content : csv) : M unit :=
  fun st =>
    Some (Ok tt, mk_state (browser st) (Dict.set filename content (files st)) (log st)).

(** [for x in xs: acc = body x acc] *)
Fixpoint for_in {A S} (xs : list A) (acc : S) (body : A -> S -> M S) : M S :=
  match xs with
  | [] => ret acc
  | x :: xs' => bind (body x acc) (fun acc' => for_in xs' acc' body)
  end.

End Monad.

Notation "x <- m ;; k" := (bind m (fun x => k))
  (at level 61, m at next level, right associativity).
Notation "m ;; k" := (bind m (fun _ => k))
  (at level 61, right associativity).

(* ------------------------------------------------------------------ *)
(** ** class GoogleMapsScraper *)

Section GoogleMapsScraper.
Context `{Platform} `{HtmlParser}.

(** [__init__] and [setup_selenium_driver]: a failure to start the driver
    is logged and raised again. *)
Definition setup_selenium_driver : M unit :=
  try_except
    (call webdriver_Chrome)
    (fun e =>
       logger ERROR (py "Failed to initialize Selenium WebDriver: " ++ e);;
       raise e).

Definition handle_consent : M unit :=
  try_except
    (consent_button <-
       call (until_element_to_be_clickable 10
               (XPATH, py "//button[.//span[text()=" ++ dquote ++ py "Accept all"
                         ++ dquote ++ py "]]"));;
     call (click consent_button);;
     logger INFO (py "Clicked the 'Accept all' cookie consent button.");;
     sleep 1 2)
    (fun _ => logger INFO (py "Cookie consent button not found or not clickable.")).

Definition max_scroll_attempts : nat := 10.

(** One pass through the body of [while True]; the loop variables are
    [(last_height, scroll_attempts)].  [None] is [break]; otherwise the
    variables as the next pass finds them. *)
Definition scroll_pass (scrollable_element : WebElement) (vars : Z * nat)
  : M (option (Z * nat)) :=
  let '(last_height, scroll_attempts) := vars in
  call (script_scroll_to_bottom scrollable_element);;
  sleep 3 5;;
  new_height <- call (script_scrollHeight scrollable_element);;
  if (new_height =? last_height)%Z then
    let scroll_attempts := S scroll_attempts in
    if max_scroll_attempts <? scroll_attempts then
      logger INFO (py "Reached end of scrollable content or max attempts ("
                     ++ str_of_nat max_scroll_attempts ++ py ").");;
      ret None
    else ret (Some (new_height, scroll_attempts))
  else ret (Some (new_height, 0)).

(** [while True: ...] *)
Fixpoint scroll_loop (fuel : nat) (scrollable_element : WebElement)
    (vars : Z * nat) : M unit :=
  match fuel with
  | O => out_of_fuel
  | S fuel' =>
      r <- scroll_pass scrollable_element vars;;
      match r with
      | None => ret tt
      | Some vars' => scroll_loop fuel' scrollable_element vars'
      end
  end.

Definition sentinel : pystr := py "N/A".

(** The value stored under ['address'] (lines 141 to 149): the last piece
    of the text of the container, stripped, when [split] gives several
    pieces; the whole text when it gives one; the empty string without a
    container. *)
Definition address_of (address_container : option Tag) : pystr :=
  match address_container with
  | Some t =>
      let address_parts := split middle_dot (text t) in
      if 1 <? List.length address_parts
      then strip (last address_parts [])
      else text t
  | None => []
  end.

(** The body of [for listing in listings], up to the test on the name.
    None of the calls of the body raises in the interface, so the handler
    of its [try] is never entered. *)
Definition extract (district keyword : pystr) (listing : Tag) : dict :=
  let business_data : dict := [] in
  let name_tag := find listing (py "div") (class_ (py "qBF1Pd")) in
  let business_data :=
    Dict.set (py "name")
      (match name_tag with Some t => text t | None => sentinel end)
      business_data in
  let phone_tag := find listing (py "span") (class_ (py "UsdlK")) in
  let business_data :=
    Dict.set (py "phone")
      (match phone_tag with Some t => text t | None => [] end)
      business_data in
  let address_container := find listing (py "div") (class_ (py "W4Efsd")) in
  let business_data :=
    Dict.set (py "address") (address_of address_container) business_data in
  Dict.update [(py "district", district); (py "category", keyword)] business_data.

(** [business_data.get('name') != 'N/A'] *)
Definition has_name (business_data : dict) : bool :=
  match Dict.get (py "name") business_data with
  | Some name => negb (name =? sentinel)%py
  | None => true
  end.

(** [for listing in listings: ...], [businesses] being the list built so
    far. *)
Fixpoint parse_listings (district keyword : pystr) (listings : list Tag)
    (businesses : list dict) : list dict :=
  match listings with
  | [] => businesses
  | listing :: listings' =>
      let business_data := extract district keyword listing in
      let businesses :=
        if has_name business_data then businesses ++ [business_data]
        else businesses in
      parse_listings district keyword listings' businesses
  end.

(** The candidates: [soup.find_all('div', {'jsaction': re.compile(...)})] *)
Definition listings_of (soup : Tag) : list Tag :=
  find_all soup (py "div") (attr_regex (py "jsaction") (py ".*mouseover:pane.*")).

Definition parse_results (page_source district keyword : pystr) : M (list dict) :=
  let soup := BeautifulSoup page_source in
  let businesses : list dict := [] in
  let listings := listings_of soup in
  logger INFO (py "Found " ++ str_of_nat (List.length listings)
                 ++ py " potential business listings.");;
  ret (parse_listings district keyword listings businesses).

Definition search_and_scrape (fuel : nat) (keyword district : pystr) (pages : Z)
  : M (list dict) :=
  let businesses : list dict := [] in
  let query := keyword ++ py " in " ++ district ++ py ", Bangladesh" in
  encoded_query <- pure_call (quote query);;
  let url := py "https://www.google.com/maps/search/" ++ encoded_query in
  logger INFO (py "Navigating to: " ++ url);;
  call (driver_get url);;
  handle_consent;;
  businesses <-
    try_except
      (call (until_url_contains 20 (py "/maps/search/"));;
       scrollable_element <-
         try_except
           (call (until_presence_of_element_located 10
                    (XPATH, py "//div[contains(@aria-label, 'Results for')]")))
           (fun _ =>
              try_except
                (call (until_presence_of_element_located 10
                         (CSS_SELECTOR,
                          py "div[role=" ++ dquote ++ py "feed" ++ dquote ++ py "]")))
                (fun _ =>
                   logger WARNING
                     (py "Could not find a specific scrollable element, falling back to body.");;
                   call (find_element (TAG_NAME, py "body"))));;
       last_height <- call (script_scrollHeight scrollable_element);;
       let scroll_attempts := 0 in
       scroll_loop fuel scrollable_element (last_height, scroll_attempts);;
       page_source <- call driver_page_source;;
       parse_results page_source district keyword)
      (fun e =>
         logger ERROR (py "An error occurred during scraping for '" ++ query
                         ++ py "':" ++ [10%N] ++ format_exc e);;
         ret businesses);;
  ret businesses.

Definition expected_columns : list pystr :=
  [py "name"; py "phone"; py "address"; py "district"; py "category"].

(** [for col in expected_columns: if col not in df.columns: df[col] = ''] *)
Definition fill_missing (df : Pandas.DataFrame) : Pandas.DataFrame :=
  fold_left
    (fun df col =>
       if negb (Pandas.has_column col (Pandas.columns df))
       then Pandas.setitem col [] df
       else df)
    expected_columns df.

Definition save_to_csv (businesses : list dict) (filename : pystr) : M unit :=
  match businesses with
  | [] => logger WARNING (py "No data to save.")
  | _ :: _ =>
      let df := Pandas.from_records businesses in
      let df := fill_missing df in
      df <- pure_call (Pandas.getitem expected_columns df);;
      df_unique <-
        pure_call (Pandas.drop_duplicates [py "name"; py "address"] df);;
      write_file filename (Pandas.to_csv df_unique);;
      logger INFO ([9989%N] ++ py " Saved " ++ str_of_nat (Pandas.len df_unique)
                     ++ py " unique businesses to " ++ filename)
  end.

(** [close]: the driver object is always truthy. *)
Definition close : M unit := call driver_quit.

Definition keywords : list pystr :=
  [py "motorcycle"; py "motorcycle showroom"; py "bike repair";
   py "motorcycle service"].

Definition districts : list pystr := [py "Dhaka"].

(** The two nested [for] loops of [main]; the result is [all_businesses]. *)
Definition collect (fuel : nat) : M (list dict) :=
  for_in districts ([] : list dict) (fun district all_businesses =>
    logger INFO (py "--- Starting search in: " ++ district ++ py " ---");;
    for_in keywords all_businesses (fun keyword all_businesses =>
      logger INFO (py "   Searching for: '" ++ keyword ++ py "'");;
      businesses <- search_and_scrape fuel keyword district 5;;
      all_businesses <-
        match businesses with
        | _ :: _ =>
            logger INFO (py "   -> Found " ++ str_of_nat (List.length businesses)
                           ++ py " results for '" ++ keyword ++ py "' in "
                           ++ district ++ py ".");;
            ret (all_businesses ++ businesses)
        | [] =>
            logger WARNING (py "   -> No results found for '" ++ keyword
                              ++ py "' in " ++ district ++ py ".");;
            ret all_businesses
        end;;
      sleep 3 7;;
      ret all_businesses)).

(** What [main] does with [all_businesses] once the loops are over. *)
Definition persist (all_businesses : list dict) : M unit :=
  match all_businesses with
  | _ :: _ =>
      timestamp <- now (py "%Y%m%d_%H%M%S");;
      let filename :=
        py "bangladesh_motorcycle_businesses_" ++ timestamp ++ py ".csv" in
      save_to_csv all_businesses filename
  | [] => logger WARNING (py "Scraping finished, but no businesses were found.")
  end.

Definition main (fuel : nat) : M unit :=
  setup_selenium_driver;;
  try_finally
    (try_except
       (all_businesses <- collect fuel;;
        persist all_businesses)
       (fun e =>
          logger CRITICAL
            (py "A critical error occurred in the main function: " ++ e)))
    (close;;
     logger INFO (py "Browser closed. Script finished.")).

End GoogleMapsScraper.

(* ------------------------------------------------------------------ *)
(** ** What the statements observe *)

Section Observations.
Context `{Platform}.

(** The browser's side of one pass of the scroll loop: scroll to the bottom,
    wait, measure. *)
Definition scroll_and_measure (el : WebElement) (w : world)
  : outcome Z * world :=
  match script_scroll_to_bottom el w with
  | (Ok _, w1) => script_scrollHeight el (sleep_uniform 3 5 w1)
  | (Raise e, w1) => (Raise e, w1)
  end.

(** The world after [n] passes. *)
Fixpoint world_after (el : WebElement) (n : nat) (w : world) : world :=
  match n with
  | O => w
  | S k => world_after el k (snd (scroll_and_measure el w))
  end.

(** The height measured by pass [n] (passes are counted from 0): the
    sequence of height measurements the world [w] holds in store. *)
Definition reading (el : WebElement) (n : nat) (w : world) : outcome Z :=
  fst (scroll_and_measure el (world_after el n w)).

(** The line the loop logs when it breaks. *)
Definition stop_line : log_line :=
  (INFO, py "Reached end of scrollable content or max attempts (10).").

Definition with_browser (st : state) (w : world) : state :=
  mk_state w (files st) (log st).

(** A computation that leaves the written files alone. *)
Definition keeps_files {A} (m : M A) : Prop :=
  forall st r st', m st = Some (r, st') -> files st' = files st.

(** A computation that only adds lines to the log. *)
Definition grows_log {A} (m : M A) : Prop :=
  forall st r st', m st = Some (r, st') -> exists more, log st' = log st ++ more.

(** A computation that returns whenever it ends. *)
Definition never_raises {A} (m : M A) : Prop :=
  forall st r st', m st = Some (r, st') -> exists a, r = Ok a.

End Observations.

(** The query as [search_and_scrape] builds it. *)
Definition query_of (keyword district : pystr) : pystr :=
  keyword ++ py " in " ++ district ++ py ", Bangladesh".

Definition url_of (encoded_query : pystr) : pystr :=
  py "https://www.google.com/maps/search/" ++ encoded_query.

Section Fields.
Context `{HtmlParser}.

(** The values [extract] stores under ['name'] and ['phone']. *)
Definition name_text (listing : Tag) : pystr :=
  match find listing (py "div") (class_ (py "qBF1Pd")) with
  | Some t => text t
  | None => sentinel
  end.

Definition phone_text (listing : Tag) : pystr :=
  match find listing (py "span") (class_ (py "UsdlK")) with
  | Some t => text t
  | None => []
  end.

End Fields.

(** The (name, address) pair of a record, as [d.get] gives the two. *)
Definition pair_of (d : dict) : option pystr * option pystr :=
  (Dict.get (py "name") d, Dict.get (py "address") d).

Definition pair_eq_dec (a b : option pystr * option pystr) : {a = b} + {a <> b}.
Proof. repeat decide equality. Defined.

(** A record as [parse_results] builds it has a name and an address. *)
Definition keyed (d : dict) : Prop :=
  Dict.get (py "name") d <> None /\ Dict.get (py "address") d <> None.

(** The row of a record in the file: its five fields, a missing one
    empty. *)
Definition row_of (d : dict) : list pystr :=
  map (fun col => Pandas.render (Dict.get col d)) expected_columns.

(** The (name, address) pair of a row of the file. *)
Definition name_address (row : list pystr) : pystr * pystr :=
  (nth 0 row [], nth 2 row []).

Definition same_pair (row : list pystr) (d : dict) : bool :=
  (nth 0 (row_of d) [] =? nth 0 row [])%py
  && (nth 2 (row_of d) [] =? nth 2 row [])%py.

(** The cell of record [d] in column [col] once [save_to_csv] has
    completed the columns of the frame built from [bs]: a column no record
    has is filled with the empty string. *)
Definition filled (bs : list dict) (d : dict) (col : pystr) : Pandas.cell :=
  if Pandas.has_column col (Pandas.union_keys bs) then Dict.get col d
  else Some [].

(** The frame holds, for every record of [bs], its [filled] cells. *)
Definition frame_of_filled (bs : list dict) (df : Pandas.DataFrame) : Prop :=
  Pandas.values df
  = map (fun d => map (filled bs d) (Pandas.columns df)) bs
  /\ forall c, In c (Pandas.union_keys bs) -> In c (Pandas.columns df).

(** The records of [bs] whose pair is not in [seen] and not the pair of an
    earlier record of [bs]. *)
Fixpoint first_records (seen : list (option pystr * option pystr))
    (bs : list dict) : list dict :=
  match bs with
  | [] => []
  | d :: bs' =>
      if in_dec pair_eq_dec (pair_of d) seen
      then first_records seen bs'
      else d :: first_records (pair_of d :: seen) bs'
  end.

(** What [save_to_csv] writes for [bs]: the header, and the rows of the
    first records of each pair. *)
Definition saved_csv (bs : list dict) : csv :=
  mk_csv expected_columns (map row_of (first_records [] bs)).

Definition saved_line (bs : list dict) (filename : pystr) : log_line :=
  (INFO,
   [9989%N] ++ py " Saved " ++ str_of_nat (List.length (first_records [] bs))
   ++ py " unique businesses to " ++ filename).

(** The positions, counted from [i], of the records of [bs] whose pair is
    not in [seen] and not the pair of an earlier record of [bs]. *)
Fixpoint first_occurrences (seen : list (option pystr * option pystr))
    (i : nat) (bs : list dict) : list nat :=
  match bs with
  | [] => []
  | d :: bs' =>
      if in_dec pair_eq_dec (pair_of d) seen
      then first_occurrences seen (S i) bs'
      else i :: first_occurrences (pair_of d :: seen) (S i) bs'
  end.

(* ------------------------------------------------------------------ *)
(** ** A document tree behind the parser interface *)

Module Soup.

#[local] Set Warnings "-register-all".

Inductive node :=
| NavigableString (s : pystr)
| Element (name : pystr) (attrs : Dict.t pystr) (contents : list node).

(** [tag.text]: the strings below the tag, joined. *)
Fixpoint text_of (n : node) : pystr :=
  match n with
  | NavigableString s => s
  | Element _ _ contents => List.concat (map text_of contents)
  end.

(** The nodes below [n], in document order. *)
Fixpoint descendants (n : node) : list node :=
  match n with
  | NavigableString _ => []
  | Element _ _ contents => flat_map (fun c => c :: descendants c) contents
  end.

Fixpoint contains (lit s : pystr) : bool :=
  starts_with lit s
  || match s with [] => false | _ :: s' => contains lit s' end.

(** The words of a [class] attribute. *)
Fixpoint words (cur s : pystr) : list pystr :=
  match s with
  | [] => match cur with [] => [] | _ => [rev cur] end
  | c :: s' =>
      if isspace c
      then match cur with [] => words [] s' | _ => rev cur :: words [] s' end
      else words (c :: cur) s'
  end.

(** A pattern [.*lit.*], the form of the one pattern of the source, is
    searched as: the value contains [lit]. *)
Definition search (pattern value : pystr) : bool :=
  let lit := skipn 2 (firstn (List.length pattern - 2) pattern) in
  contains lit value.

Definition selects (sel : selector) (attrs : Dict.t pystr) : bool :=
  match sel with
  | attr_regex attr pattern =>
      match Dict.get attr attrs with
      | Some value => search pattern value
      | None => false
      end
  | class_ name =>
      match Dict.get (py "class") attrs with
      | Some value => existsb (fun w => (w =? name)%py) (words [] value)
      | None => false
      end
  end.

Definition is_match (name : pystr) (sel : selector) (n : node) : bool :=
  match n with
  | NavigableString _ => false
  | Element name' attrs _ => (name' =? name)%py && selects sel attrs
  end.

(** bs4 over trees, for a given reading of markup. *)
Definition parser (parse : pystr -> node) : HtmlParser :=
  {| Tag := node;
     BeautifulSoup := parse;
     find_all := fun t name sel => filter (is_match name sel) (descendants t);
     text := text_of |}.

End Soup.

(* ------------------------------------------------------------------ *)
(** ** A scripted browser behind the platform interface *)

Module Scripted.

(** The session replays a script: what navigation does, the heights the
    results container reports after each scroll, and the markup of the
    page. *)
Record session := mk_session {
  navigation : outcome unit;
  heights : nat -> Z;
  scrolls : nat;
  markup : pystr
}.

Definition utf8 (c : N) : list N :=
  (if c <? 128 then [c]
   else if c <? 2048 then [192 + c / 64; 128 + c mod 64]
   else if c <? 65536 then
     [224 + c / 4096; 128 + (c / 64) mod 64; 128 + c mod 64]
   else
     [240 + c / 262144; 128 + (c / 4096) mod 64; 128 + (c / 64) mod 64;
      128 + c mod 64])%N.

Definition hex (d : N) : N := (if d <? 10 then 48 + d else 55 + d)%N.

Definition unreserved (b : N) : bool :=
  ((65 <=? b) && (b <=? 90) || (97 <=? b) && (b <=? 122)
   || (48 <=? b) && (b <=? 57)
   || (b =? 95) || (b =? 46) || (b =? 45) || (b =? 126) || (b =? 47))%N.

Definition quote_byte (b : N) : pystr :=
  if unreserved b then [b] else [37%N; hex (b / 16); hex (b mod 16)].

Definition is_surrogate (c : N) : bool := ((55296 <=? c) && (c <=? 57343))%N.

(** [urllib.parse.quote(s)], with the default [safe='/']. *)
Definition urllib_quote (s : pystr) : outcome pystr :=
  if existsb is_surrogate s
  then Raise (py "'utf-8' codec can't encode character: surrogates not allowed")
  else Ok (flat_map quote_byte (flat_map utf8 s)).

Definition timeout : exn := py "TimeoutException".

Definition platform : Platform :=
  {| world := session;
     WebElement := locator;
     webdriver_Chrome := fun w => (Ok tt, w);
     driver_get := fun _ w => (navigation w, w);
     until_element_to_be_clickable := fun _ _ w => (Raise timeout, w);
     click := fun _ w => (Ok tt, w);
     until_url_contains := fun _ _ w => (Ok tt, w);
     until_presence_of_element_located := fun _ loc w => (Ok loc, w);
     find_element := fun loc w => (Ok loc, w);
     script_scrollHeight := fun _ w => (Ok (heights w (scrolls w)), w);
     script_scroll_to_bottom := fun _ w =>
       (Ok tt, mk_session (navigation w) (heights w) (S (scrolls w)) (markup w));
     driver_page_source := fun w => (Ok (markup w), w);
     driver_quit := fun w => (Ok tt, w);
     sleep_uniform := fun _ _ w => w;
     strftime := fun _ _ => py "20240101_120000";
     quote := urllib_quote;
     format_exc := fun e => py "Traceback (most recent call last): " ++ e |}.

(** The process starts with no file written and an empty log. *)
Definition start (w : session) : @state platform :=
  @mk_state platform w [] [].

(** The network is down: [driver.get] raises. *)
Definition offline : session :=
  mk_session (Raise (py "net::ERR_INTERNET_DISCONNECTED")) (fun _ => 900%Z) 0 [].

(** A feed that never ends: every scroll makes the container taller. *)
Definition endless : session :=
  mk_session (Ok tt) (fun n => (900 + 300 * Z.of_nat n)%Z) 0 [].

(** The endless feed after [n] scrolls. *)
Definition endless_at (n : nat) : session :=
  mk_session (Ok tt) (heights endless) n [].

(** A container that grows with the first three scrolls and then stays. *)
Definition settling : session :=
  mk_session (Ok tt) (fun n => Z.min (900 + 300 * Z.of_nat n) 1800) 0 [].

(** A container that grows once, late: with the tenth scroll. *)
Definition late_growth : session :=
  mk_session (Ok tt) (fun n => if n <=? 9 then 900%Z else 1200%Z) 0 [].

(** The element the scroll loop works on. *)
Definition feed : locator := (CSS_SELECTOR, py "div[role=feed]").

(** A page whose container never grows. *)
Definition still (page : pystr) : session :=
  mk_session (Ok tt) (fun _ => 900%Z) 0 page.

End Scripted.

(* ------------------------------------------------------------------ *)
(** ** A fixture page *)

Module Fixture.
Import Soup.

Definition div (class : string) (contents : list node) : node :=
  Element (py "div") [(py "class", py class)] contents.

Definition span (class : string) (contents : list node) : node :=
  Element (py "span") [(py "class", py class)] contents.

Definition item (contents : list node) : node :=
  Element (py "div")
    [(py "jsaction", py "mouseover:pane.wfvdle12;click:pane.wfvdle12")]
    contents.

(** Two shops, then an item without a name, then one named ['N/A']. *)
Definition shop1 : node :=
  item [div "qBF1Pd fontHeadlineSmall" [NavigableString (py "Dhaka Bikes")];
        div "W4Efsd"
          [NavigableString (py "123 Main St " ++ middle_dot ++ py " Dhaka")];
        span "UsdlK" [NavigableString (py "01700-000000")]].

Definition shop2 : node :=
  item [div "qBF1Pd" [NavigableString (py "Moto Fix")];
        div "W4Efsd" [NavigableString (py "45 Lake Rd")]].

Definition nameless : node :=
  item [div "W4Efsd" [NavigableString (py "7 Ring Rd")]].

Definition collision : node :=
  item [div "qBF1Pd" [NavigableString (py "N/A")];
        div "W4Efsd" [NavigableString (py "7 Ring Rd")]].

Definition page : node :=
  Element (py "body") []
    [Element (py "div") [(py "role", py "feed")]
       [shop1; shop2; nameless; collision]].

(** The same page with a second nameless item where [collision] was. *)
Definition page' : node :=
  Element (py "body") []
    [Element (py "div") [(py "role", py "feed")]
       [shop1; shop2; nameless; nameless]].

Definition empty_page : node := Element (py "body") [] [].

(** Markup is read by name: ["results"] is [page], ["results'"] is [page'],
    anything else is a page without items. *)
Definition parse (markup : pystr) : node :=
  if (markup =? py "results")%py then page
  else if (markup =? py "results'")%py then page'
  else empty_page.

Definition bs4 : HtmlParser := Soup.parser parse.

(** What two queries over [page] accumulate: both shops, twice. *)
Definition accumulated : list dict :=
  @parse_listings bs4 (py "Dhaka") (py "motorcycle") (@listings_of bs4 page) []
  ++ @parse_listings bs4 (py "Dhaka") (py "bike repair") (@listings_of bs4 page) [].

(** Records that carry a name and nothing else. *)
Definition bare : list dict :=
  [[(py "name", py "Dhaka Bikes")]; [(py "name", py "Moto Fix")]].

End Fixture.

(* ------------------------------------------------------------------ *)
(** ** Further observations *)

Section Further.
Context `{Platform} `{HtmlParser}.

(** The body of the [try] of [search_and_scrape] (lines 75 to 115). *)
Definition scrape_body (fuel : nat) (keyword district : pystr)
  : M (list dict) :=
  call (until_url_contains 20 (py "/maps/search/"));;
  scrollable_element <-
    try_except
      (call (until_presence_of_element_located 10
               (XPATH, py "//div[contains(@aria-label, 'Results for')]")))
      (fun _ =>
         try_except
           (call (until_presence_of_element_located 10
                    (CSS_SELECTOR,
                     py "div[role=" ++ dquote ++ py "feed" ++ dquote ++ py "]")))
           (fun _ =>
              logger WARNING
                (py "Could not find a specific scrollable element, falling back to body.");;
              call (find_element (TAG_NAME, py "body"))));;
  last_height <- call (script_scrollHeight scrollable_element);;
  let scroll_attempts := 0 in
  scroll_loop fuel scrollable_element (last_height, scroll_attempts);;
  page_source <- call driver_page_source;;
  parse_results page_source district keyword.

(** The line [search_and_scrape] logs before it navigates, and the line
    its handler logs. *)
Definition navigating_line (encoded_query : pystr) : log_line :=
  (INFO, py "Navigating to: " ++ url_of encoded_query).

Definition error_line (keyword district : pystr) (e : exn) : log_line :=
  (ERROR,
   py "An error occurred during scraping for '" ++ query_of keyword district
   ++ py "':" ++ [10%N] ++ format_exc e).

(** Whatever [m] returns satisfies [Q]. *)
Definition ensures {A} (m : M A) (Q : A -> Prop) : Prop :=
  forall st a st', m st = Some (Ok a, st') -> Q a.

(** A record [extract] builds for the query, from a candidate whose name is
    not the sentinel. *)
Definition extracted (district keyword : pystr) (d : dict) : Prop :=
  exists listing,
    d = extract district keyword listing /\ name_text listing <> sentinel.

(** A record of the run of [main]: extracted for one of its districts and
    one of its keywords. *)
Definition collected (d : dict) : Prop :=
  exists district keyword,
    In district districts /\ In keyword keywords
    /\ extracted district keyword d.

End Further.

(** The name [main] gives the file. *)
Definition csv_name (timestamp : pystr) : pystr :=
  py "bangladesh_motorcycle_businesses_" ++ timestamp ++ py ".csv".

Definition consent_clicked : pystr :=
  py "Clicked the 'Accept all' cookie consent button.".

Definition consent_absent : pystr :=
  py "Cookie consent button not found or not clickable.".

Definition closed_line : log_line :=
  (INFO, py "Browser closed. Script finished.").

Definition critical_line (e : exn) : log_line :=
  (CRITICAL, py "A critical error occurred in the main function: " ++ e).

(** The height the loop holds before pass [k]: the first measurement, or
    the reading of the pass before. *)
Definition height_before `{Platform} (el : WebElement) (last : Z) (k : nat)
    (w : world) : outcome Z :=
  match k with
  | O => Ok last
  | S j => reading el j w
  end.

(** A browser that can fail to start, and whose results container goes
    stale: measuring it raises once [stale_from] scrolls have been made. *)
Module Flaky.

Definition stale : exn := py "StaleElementReferenceException".

Definition platform (chrome : outcome unit) (stale_from : nat) : Platform :=
  {| world := Scripted.session;
     WebElement := locator;
     webdriver_Chrome := fun w => (chrome, w);
     driver_get := fun _ w => (Scripted.navigation w, w);
     until_element_to_be_clickable := fun _ loc w => (Ok loc, w);
     click := fun _ w => (Ok tt, w);
     until_url_contains := fun _ _ w => (Ok tt, w);
     until_presence_of_element_located := fun _ loc w =>
       match fst loc with
       | XPATH => (Raise Scripted.timeout, w)
       | _ => (Ok loc, w)
       end;
     find_element := fun loc w => (Ok loc, w);
     script_scrollHeight := fun _ w =>
       if stale_from <=? Scripted.scrolls w then (Raise stale, w)
       else (Ok (Scripted.heights w (Scripted.scrolls w)), w);
     script_scroll_to_bottom := fun _ w =>
       (Ok tt,
        Scripted.mk_session (Scripted.navigation w) (Scripted.heights w)
          (S (Scripted.scrolls w)) (Scripted.markup w));
     driver_page_source := fun w => (Ok (Scripted.markup w), w);
     driver_quit := fun w => (Ok tt, w);
     sleep_uniform := fun _ _ w => w;
     strftime := fun _ _ => py "20240101_120000";
     quote := Scripted.urllib_quote;
     format_exc := fun e => py "Traceback (most recent call last): " ++ e |}.

Definition start (chrome : outcome unit) (stale_from : nat)
    (w : Scripted.session) : @state (platform chrome stale_from) :=
  @mk_state (platform chrome stale_from) w [] [].

Definition no_chrome : exn := py "session not created".

End Flaky.

(** More records and candidates for the fixture. *)
Module Fixture2.
Import Soup.

(** A candidate whose name element is empty. *)
Definition blank : node :=
  Fixture.item
    [Fixture.div "qBF1Pd" [];
     Fixture.div "W4Efsd" [NavigableString (py "9 Hill Rd")]].

(** A candidate whose address text ends with the separator. *)
Definition trailing : node :=
  Fixture.item
    [Fixture.div "qBF1Pd" [NavigableString (py "Gear Box")];
     Fixture.div "W4Efsd" [NavigableString (py "Open " ++ middle_dot ++ py "  ")]].

(** A page with the two of them between the shops. *)
Definition page : node :=
  Element (py "body") []
    [Element (py "div") [(py "role", py "feed")]
       [Fixture.shop1; blank; trailing; Fixture.nameless; Fixture.shop2]].

Definition bs4 : HtmlParser := Soup.parser (fun _ => page).

(** One query over the page: two records, of different pairs. *)
Definition distinct : list dict :=
  @parse_listings Fixture.bs4 (py "Dhaka") (py "motorcycle")
    (@listings_of Fixture.bs4 Fixture.page) [].

(** Two records of one name: the first with an empty address, the second
    without the key. *)
Definition ragged : list dict :=
  [[(py "name", py "Dhaka Bikes"); (py "address", [])];
   [(py "name", py "Dhaka Bikes")]].

(** The state in which a file of the name is there already. *)
Definition with_old_file : @state Scripted.platform :=
  @mk_state Scripted.platform (Scripted.still [])
    [(py "other.csv", mk_csv [py "a"] [[py "1"]]);
     (py "out.csv", mk_csv [py "old"] [[py "x"]; [py "y"]])]
    [].

(** The value, the outcome and the state of a run. *)
Definition value_of {A S} (r : option (outcome A * S)) (dflt : A) : A :=
  match r with Some (Ok a, _) => a | _ => dflt end.

Definition outcome_of {A S} (r : option (outcome A * S)) (dflt : outcome A)
  : outcome A :=
  match r with Some (o, _) => o | None => dflt end.

Definition state_of {A S} (r : option (outcome A * S)) (dflt : S) : S :=
  match r with Some (_, s) => s | None => dflt end.

(** The runs the properties are tried on. *)
Definition results_start : @state Scripted.platform :=
  Scripted.start (Scripted.still (py "results")).

Definition offline_start : @state Scripted.platform :=
  Scripted.start Scripted.offline.

Definition flaky_start : @state (Flaky.platform (Ok tt) 3) :=
  Flaky.start (Ok tt) 3 (Scripted.still (py "results")).

Definition flaky_query :=
  @search_and_scrape (Flaky.platform (Ok tt) 3) Fixture.bs4 20
    (py "bike repair") (py "Dhaka") 5 flaky_start.

Definition old_file_query :=
  @search_and_scrape Scripted.platform Fixture.bs4 11
    (py "bike repair") (py "Dhaka") 5 with_old_file.

(** What the runs give, evaluated once. *)
Definition collected_all : list dict :=
  Eval vm_compute in
    value_of (@collect Scripted.platform Fixture.bs4 11 results_start) [].

Definition collected_browser : Scripted.session :=
  Eval vm_compute in browser (state_of (@collect Scripted.platform Fixture.bs4 11 results_start) results_start).

Definition collected_files : Dict.t csv :=
  Eval vm_compute in files (state_of (@collect Scripted.platform Fixture.bs4 11 results_start) results_start).

Definition collected_log : list log_line :=
  Eval vm_compute in log (state_of (@collect Scripted.platform Fixture.bs4 11 results_start) results_start).

Definition collected_state : @state Scripted.platform :=
  @mk_state Scripted.platform collected_browser collected_files collected_log.

Definition offline_browser : Scripted.session :=
  Eval vm_compute in browser (state_of (@collect Scripted.platform Fixture.bs4 11 offline_start) offline_start).

Definition offline_files : Dict.t csv :=
  Eval vm_compute in files (state_of (@collect Scripted.platform Fixture.bs4 11 offline_start) offline_start).

Definition offline_log : list log_line :=
  Eval vm_compute in log (state_of (@collect Scripted.platform Fixture.bs4 11 offline_start) offline_start).

Definition offline_state : @state Scripted.platform :=
  @mk_state Scripted.platform offline_browser offline_files offline_log.

Definition offline_end_browser : Scripted.session :=
  Eval vm_compute in browser (state_of (@main Scripted.platform Fixture.bs4 11 offline_start) offline_start).

Definition offline_end_files : Dict.t csv :=
  Eval vm_compute in files (state_of (@main Scripted.platform Fixture.bs4 11 offline_start) offline_start).

Definition offline_end_log : list log_line :=
  Eval vm_compute in log (state_of (@main Scripted.platform Fixture.bs4 11 offline_start) offline_start).

Definition offline_end : @state Scripted.platform :=
  @mk_state Scripted.platform offline_end_browser offline_end_files
    offline_end_log.

Definition flaky_value : list dict :=
  Eval vm_compute in value_of flaky_query [[(py "unset", [])]].

Definition flaky_browser : Scripted.session :=
  Eval vm_compute in browser (state_of (flaky_query) flaky_start).

Definition flaky_files : Dict.t csv :=
  Eval vm_compute in files (state_of (flaky_query) flaky_start).

Definition flaky_log : list log_line :=
  Eval vm_compute in log (state_of (flaky_query) flaky_start).

Definition flaky_state : @state (Flaky.platform (Ok tt) 3) :=
  @mk_state (Flaky.platform (Ok tt) 3) flaky_browser flaky_files flaky_log.

Definition old_file_value : list dict :=
  Eval vm_compute in value_of old_file_query [].

Definition old_file_browser : Scripted.session :=
  Eval vm_compute in browser (state_of (old_file_query) results_start).

Definition old_file_files : Dict.t csv :=
  Eval vm_compute in files (state_of (old_file_query) results_start).

Definition old_file_log : list log_line :=
  Eval vm_compute in log (state_of (old_file_query) results_start).

Definition old_file_state : @state Scripted.platform :=
  @mk_state Scripted.platform old_file_browser old_file_files old_file_log.

Definition encoded : pystr := py "bike%20repair%20in%20Dhaka%2C%20Bangladesh".

Definition offline_error : exn := py "net::ERR_INTERNET_DISCONNECTED".

Definition results_file : pystr :=
  py "bangladesh_motorcycle_businesses_20240101_120000.csv".

End Fixture2.

(* ================================================================== *)
(** * Properties *)

(* ------------------------------------------------------------------ *)
(** ** Strings and dictionaries *)

Lemma eqb_eq (a b : pystr) : (a =? b)%py = true <-> a = b.
Proof.
  revert b; induction a as [|x a IH]; intros [|y b]; simpl; split;
    try congruence; try reflexivity.
  - intros E. apply andb_prop in E as [Exy Eab].
    apply N.eqb_eq in Exy. apply IH in Eab. congruence.
  - intros E. injection E as -> ->.
    rewrite N.eqb_refl. simpl. now apply IH.
Qed.

Lemma eqb_refl (a : pystr) : (a =? a)%py = true.
Proof. now apply eqb_eq. Qed.

Lemma eqb_neq (a b : pystr) : (a =? b)%py = false <-> a <> b.
Proof.
  split.
  - intros E Eq. apply eqb_eq in Eq. congruence.
  - intros N. destruct (a =? b)%py eqn:E; [|reflexivity].
    apply eqb_eq in E. contradiction.
Qed.

Lemma eqb_sym (a b : pystr) : (a =? b)%py = (b =? a)%py.
Proof.
  destruct (b =? a)%py eqn:E.
  - apply eqb_eq in E. subst. apply eqb_refl.
  - apply eqb_neq. apply eqb_neq in E. congruence.
Qed.

Lemma get_set_same {V} (k : pystr) (v : V) (d : Dict.t V) :
  Dict.get k (Dict.set k v d) = Some v.
Proof.
  induction d as [|[k' v'] d IH]; simpl.
  - now rewrite eqb_refl.
  - destruct (k' =? k)%py eqn:E; simpl; rewrite E; auto.
Qed.

Lemma get_set_other {V} (k k' : pystr) (v : V) (d : Dict.t V) :
  k <> k' -> Dict.get k (Dict.set k' v d) = Dict.get k d.
Proof.
  intros N. induction d as [|[k0 v0] d IH]; simpl.
  - apply not_eq_sym, eqb_neq in N. now rewrite N.
  - destruct (k0 =? k')%py eqn:E; simpl.
    + apply eqb_eq in E. subst k0.
      apply not_eq_sym, eqb_neq in N. now rewrite N.
    + destruct (k0 =? k)%py; auto.
Qed.

(** Splitting on one character. *)
Lemma split_absent (c : N) (cur s : pystr) :
  ~ In c s -> split_from [c] 0 cur s = [rev cur ++ s].
Proof.
  revert cur; induction s as [|x s IH]; intros cur Hin; simpl.
  - now rewrite app_nil_r.
  - destruct (N.eqb_spec c x) as [->|Hcx].
    + exfalso. apply Hin. now left.
    + simpl. rewrite IH.
      * simpl. now rewrite <- app_assoc.
      * intros Hs. apply Hin. now right.
Qed.

Lemma last_cons_many {A} (a d : A) (l : list A) :
  0 < List.length l -> last (a :: l) d = last l d.
Proof. destruct l; simpl; [lia | reflexivity]. Qed.

Lemma split_from_cons (c x : N) (cur s : pystr) :
  split_from [c] 0 cur (x :: s)
  = if N.eqb c x then rev cur :: split_from [c] 0 [] s
    else split_from [c] 0 (x :: cur) s.
Proof. simpl. destruct (N.eqb c x); reflexivity. Qed.

Lemma split_last (c : N) (cur pre suf : pystr) :
  ~ In c suf ->
  last (split_from [c] 0 cur (pre ++ c :: suf)) [] = suf
  /\ 1 < List.length (split_from [c] 0 cur (pre ++ c :: suf)).
Proof.
  intros Hsuf. revert cur; induction pre as [|x pre IH]; intros cur;
    rewrite <- ?app_comm_cons; cbn [app]; rewrite split_from_cons.
  - rewrite N.eqb_refl, split_absent by assumption.
    split; [reflexivity | simpl; lia].
  - destruct (N.eqb c x).
    + destruct (IH []) as [Hl Hn]. split; [|simpl; lia].
      rewrite last_cons_many by lia. exact Hl.
    + apply IH.
Qed.

(* ------------------------------------------------------------------ *)
(** ** The extractor *)

Section Extractor.
Context `{Platform} `{HtmlParser}.

(** A record always has the five keys, in this order. *)
Lemma extract_shape (district keyword : pystr) (listing : Tag) :
  extract district keyword listing
  = [(py "name", name_text listing);
     (py "phone", phone_text listing);
     (py "address", address_of (find listing (py "div") (class_ (py "W4Efsd"))));
     (py "district", district);
     (py "category", keyword)].
Proof. reflexivity. Qed.

Lemma extract_keyed (district keyword : pystr) (listing : Tag) :
  keyed (extract district keyword listing).
Proof. rewrite extract_shape. split; discriminate. Qed.

Lemma has_name_extract (district keyword : pystr) (listing : Tag) :
  has_name (extract district keyword listing)
  = negb (name_text listing =? sentinel)%py.
Proof. reflexivity. Qed.

(** The loop appends, in order, the records of the candidates that pass the
    test on the name. *)
Lemma parse_listings_filter (district keyword : pystr) (listings : list Tag)
    (businesses : list dict) :
  parse_listings district keyword listings businesses
  = businesses
    ++ map (extract district keyword)
         (filter (fun l => has_name (extract district keyword l)) listings).
Proof.
  revert businesses; induction listings as [|l ls IH]; intros acc; simpl.
  - now rewrite app_nil_r.
  - rewrite IH. destruct (has_name (extract district keyword l)); simpl.
    + now rewrite <- app_assoc.
    + reflexivity.
Qed.

Lemma parse_listings_drop (district keyword : pystr) (pre post : list Tag)
    (listing : Tag) (businesses : list dict) :
  has_name (extract district keyword listing) = false ->
  parse_listings district keyword (pre ++ listing :: post) businesses
  = parse_listings district keyword (pre ++ post) businesses.
Proof.
  intros Hn. rewrite !parse_listings_filter, !filter_app. simpl.
  now rewrite Hn.
Qed.

Lemma parse_results_run (page_source district keyword : pystr) (st : state) :
  parse_results page_source district keyword st
  = Some
      (Ok (parse_listings district keyword
             (listings_of (BeautifulSoup page_source)) []),
       mk_state (browser st) (files st)
         (log st
          ++ [(INFO,
               py "Found "
               ++ str_of_nat (List.length (listings_of (BeautifulSoup page_source)))
               ++ py " potential business listings.")])).
Proof. reflexivity. Qed.

End Extractor.

Section ExtractorClaims.
Context `{Platform} `{HtmlParser}.

(** C5.  The record of a candidate always has an address.  It is the
    empty string when the candidate has no address container; the text of
    the container, unchanged, when the text holds no middle dot; and
    otherwise the last of the pieces the middle dot separates, that is what
    follows the last middle dot of the text, with the white space at both
    ends stripped, as in the example of the specification: ["Dhaka"] for
    ["123 Main St · Dhaka"]. *)
Theorem extract_address (district keyword : pystr) (listing : Tag) :
  exists address,
    Dict.get (py "address") (extract district keyword listing) = Some address
    /\ (find listing (py "div") (class_ (py "W4Efsd")) = None -> address = [])
    /\ (forall t,
          find listing (py "div") (class_ (py "W4Efsd")) = Some t ->
          ~ In 183%N (text t) -> address = text t)
    /\ (forall t pre suf,
          find listing (py "div") (class_ (py "W4Efsd")) = Some t ->
          text t = pre ++ 183%N :: suf -> ~ In 183%N suf ->
          address = strip suf).
Proof.
  exists (address_of (find listing (py "div") (class_ (py "W4Efsd")))).
  split; [reflexivity|]. repeat split.
  - intros ->. reflexivity.
  - intros t -> Hdot. unfold address_of, split, middle_dot.
    rewrite split_absent by assumption. reflexivity.
  - intros t pre suf -> Ht Hdot. unfold address_of, split, middle_dot.
    rewrite Ht. destruct (split_last 183%N [] pre suf Hdot) as [Hlast Hlen].
    apply Nat.ltb_lt in Hlen. rewrite Hlen, Hlast. reflexivity.
Qed.

(** C6.  A candidate without the name element gets the name ['N/A'] and
    leaves no record: [parse_results] returns what it returns for the page
    without that candidate. *)
Theorem parse_results_skips_nameless
    (page_source district keyword : pystr) (st : state)
    (pre post : list Tag) (listing : Tag) :
  listings_of (BeautifulSoup page_source) = pre ++ listing :: post ->
  find listing (py "div") (class_ (py "qBF1Pd")) = None ->
  Dict.get (py "name") (extract district keyword listing) = Some (py "N/A")
  /\ exists st',
       parse_results page_source district keyword st
       = Some (Ok (parse_listings district keyword (pre ++ post) []), st').
Proof.
  intros Hls Hfind. split.
  - rewrite extract_shape. unfold name_text. rewrite Hfind. reflexivity.
  - rewrite parse_results_run, Hls. eexists.
    rewrite parse_listings_drop; [reflexivity|].
    rewrite has_name_extract. unfold name_text. rewrite Hfind. reflexivity.
Qed.

(** C9.  A candidate whose name element reads exactly ['N/A'] leaves no
    record either, and a page holding it cannot be told from the page that
    holds, in its place, a candidate without a name element:
    [parse_results] returns the same records and logs the same line. *)
Theorem parse_results_sentinel_collision
    (page_source page_source' district keyword : pystr) (st : state)
    (pre post : list Tag) (listing listing' t : Tag) :
  listings_of (BeautifulSoup page_source) = pre ++ listing :: post ->
  listings_of (BeautifulSoup page_source') = pre ++ listing' :: post ->
  find listing (py "div") (class_ (py "qBF1Pd")) = Some t ->
  text t = py "N/A" ->
  find listing' (py "div") (class_ (py "qBF1Pd")) = None ->
  parse_results page_source district keyword st
  = parse_results page_source' district keyword st
  /\ exists st',
       parse_results page_source district keyword st
       = Some (Ok (parse_listings district keyword (pre ++ post) []), st').
Proof.
  intros Hls Hls' Hfind Htext Hfind'.
  assert (Hn : has_name (extract district keyword listing) = false).
  { rewrite has_name_extract. unfold name_text. rewrite Hfind, Htext.
    reflexivity. }
  assert (Hn' : has_name (extract district keyword listing') = false).
  { rewrite has_name_extract. unfold name_text. rewrite Hfind'.
    reflexivity. }
  rewrite !parse_results_run, Hls, Hls'.
  rewrite !parse_listings_drop by assumption.
  rewrite !length_app. simpl. split; [reflexivity | eexists; reflexivity].
Qed.

End ExtractorClaims.

(** The example of the specification: ["123 Main St · Dhaka"] gives
    ["Dhaka"], by way of the piece [" Dhaka"]. *)
Lemma extract_address_witness :
  @find Fixture.bs4 Fixture.shop1 (py "div") (class_ (py "W4Efsd"))
  = Some (Fixture.div "W4Efsd"
            [Soup.NavigableString (py "123 Main St " ++ [183%N] ++ py " Dhaka")])
  /\ ~ In 183%N (py " Dhaka")
  /\ Dict.get (py "address")
       (@extract Fixture.bs4 (py "Dhaka") (py "bike repair") Fixture.shop1)
     = Some (py "Dhaka").
Proof.
  assert (Hdot : ~ In 183%N (py " Dhaka")).
  { vm_compute. intuition discriminate. }
  split; [reflexivity|]. split; [exact Hdot|].
  destruct (@extract_address Fixture.bs4 (py "Dhaka") (py "bike repair")
              Fixture.shop1) as (address & Hget & _ & _ & Hlast).
  rewrite Hget. f_equal.
  exact (Hlast _ (py "123 Main St ") (py " Dhaka") eq_refl eq_refl Hdot).
Defined.

(** The strip is what makes the example come out: the address of the
    first shop of the fixture is ["Dhaka"], where the last piece [split]
    gives for its text is [" Dhaka"], with the blank that follows the
    separator. *)
Lemma address_is_not_the_last_piece :
  exists t,
    @find Fixture.bs4 Fixture.shop1 (py "div") (class_ (py "W4Efsd")) = Some t
    /\ In 183%N (@text Fixture.bs4 t)
    /\ Dict.get (py "address")
         (@extract Fixture.bs4 (py "Dhaka") (py "bike repair") Fixture.shop1)
       <> Some (last (split middle_dot (@text Fixture.bs4 t)) []).
Proof.
  eexists. split; [reflexivity|]. split.
  - vm_compute. do 12 right. left. reflexivity.
  - vm_compute. discriminate.
Qed.

Lemma parse_results_skips_nameless_witness :
  Dict.get (py "name")
    (@extract Fixture.bs4 (py "Dhaka") (py "bike repair") Fixture.nameless)
  = Some (py "N/A")
  /\ exists st',
       @parse_results Scripted.platform Fixture.bs4
         (py "results") (py "Dhaka") (py "bike repair")
         (Scripted.start (Scripted.still (py "results")))
       = Some
           (Ok (@parse_listings Fixture.bs4 (py "Dhaka") (py "bike repair")
                  ([Fixture.shop1; Fixture.shop2] ++ [Fixture.collision]) []),
            st').
Proof.
  apply (@parse_results_skips_nameless Scripted.platform Fixture.bs4
           (py "results") (py "Dhaka") (py "bike repair")
           (Scripted.start (Scripted.still (py "results")))
           [Fixture.shop1; Fixture.shop2] [Fixture.collision] Fixture.nameless);
    reflexivity.
Defined.

Lemma parse_results_sentinel_collision_witness :
  @parse_results Scripted.platform Fixture.bs4
    (py "results") (py "Dhaka") (py "bike repair")
    (Scripted.start (Scripted.still (py "results")))
  = @parse_results Scripted.platform Fixture.bs4
      (py "results'") (py "Dhaka") (py "bike repair")
      (Scripted.start (Scripted.still (py "results")))
  /\ exists st',
       @parse_results Scripted.platform Fixture.bs4
         (py "results") (py "Dhaka") (py "bike repair")
         (Scripted.start (Scripted.still (py "results")))
       = Some
           (Ok (@parse_listings Fixture.bs4 (py "Dhaka") (py "bike repair")
                  ([Fixture.shop1; Fixture.shop2; Fixture.nameless] ++ []) []),
            st').
Proof.
  apply (@parse_results_sentinel_collision Scripted.platform Fixture.bs4
           (py "results") (py "results'") (py "Dhaka") (py "bike repair")
           (Scripted.start (Scripted.still (py "results")))
           [Fixture.shop1; Fixture.shop2; Fixture.nameless] []
           Fixture.collision Fixture.nameless
           (Fixture.div "qBF1Pd" [Soup.NavigableString (py "N/A")]));
    reflexivity.
Defined.

(* ------------------------------------------------------------------ *)
(** ** The scroll loop *)

Section ScrollLoop.
Context `{Platform}.

(** One pass, read off the browser's answer. *)
Lemma scroll_pass_run (el : WebElement) (last : Z) (a : nat) (st : state) :
  scroll_pass el (last, a) st
  = match scroll_and_measure el (browser st) with
    | (Raise e, w) => Some (Raise e, with_browser st w)
    | (Ok new, w) =>
        if (new =? last)%Z then
          if max_scroll_attempts <? S a
          then Some (Ok None, mk_state w (files st) (log st ++ [stop_line]))
          else Some (Ok (Some (new, S a)), with_browser st w)
        else Some (Ok (Some (new, 0)), with_browser st w)
    end.
Proof.
  unfold scroll_pass, scroll_and_measure, bind, call, sleep, with_browser.
  destruct (script_scroll_to_bottom el (browser st)) as [[[]|e] w1]; simpl;
    [|reflexivity].
  destruct (script_scrollHeight el (sleep_uniform 3 5 w1)) as [[new|e] w2];
    simpl; [|reflexivity].
  destruct (new =? last)%Z; [|reflexivity].
  destruct (max_scroll_attempts <? S a); reflexivity.
Qed.

Lemma reading_0 (el : WebElement) (w : world) (r : outcome Z) :
  reading el 0 w = r ->
  scroll_and_measure el w = (r, world_after el 1 w).
Proof.
  unfold reading. simpl. intros <-.
  now destruct (scroll_and_measure el w).
Qed.

Lemma pass_grow (el : WebElement) (last new : Z) (a : nat) (st : state) :
  reading el 0 (browser st) = Ok new -> new <> last ->
  scroll_pass el (last, a) st
  = Some (Ok (Some (new, 0)),
          with_browser st (world_after el 1 (browser st))).
Proof.
  intros Hr Hne. rewrite scroll_pass_run, (reading_0 el (browser st) _ Hr).
  apply Z.eqb_neq in Hne. now rewrite Hne.
Qed.

Lemma pass_stall (el : WebElement) (last : Z) (a : nat) (st : state) :
  reading el 0 (browser st) = Ok last -> S a <= max_scroll_attempts ->
  scroll_pass el (last, a) st
  = Some (Ok (Some (last, S a)),
          with_browser st (world_after el 1 (browser st))).
Proof.
  intros Hr Hle. rewrite scroll_pass_run, (reading_0 el (browser st) _ Hr), Z.eqb_refl.
  apply Nat.ltb_ge in Hle. now rewrite Hle.
Qed.

Lemma pass_break (el : WebElement) (last : Z) (a : nat) (st : state) :
  reading el 0 (browser st) = Ok last -> max_scroll_attempts < S a ->
  scroll_pass el (last, a) st
  = Some (Ok None,
          mk_state (world_after el 1 (browser st)) (files st)
            (log st ++ [stop_line])).
Proof.
  intros Hr Hlt. rewrite scroll_pass_run, (reading_0 el (browser st) _ Hr), Z.eqb_refl.
  apply Nat.ltb_lt in Hlt. now rewrite Hlt.
Qed.

Lemma scroll_loop_S (fuel : nat) (el : WebElement) (vars : Z * nat) (st : state) :
  scroll_loop (S fuel) el vars st
  = match scroll_pass el vars st with
    | Some (Ok None, st') => Some (Ok tt, st')
    | Some (Ok (Some vars'), st') => scroll_loop fuel el vars' st'
    | Some (Raise e, st') => Some (Raise e, st')
    | None => None
    end.
Proof.
  simpl. unfold bind.
  destruct (scroll_pass el vars st) as [[[[v|]|e] st']|]; reflexivity.
Qed.

(** Stalled passes that keep the counter within the threshold, then a pass
    that measures another height: the loop is still running, its counter
    back at zero. *)
Lemma stalls_then_growth (el : WebElement) (last new : Z) (k : nat) :
  new <> last ->
  forall (a fuel : nat) (st : state),
    a + k <= max_scroll_attempts ->
    (forall i, i < k -> reading el i (browser st) = Ok last) ->
    reading el k (browser st) = Ok new ->
    scroll_loop (S k + fuel) el (last, a) st
    = scroll_loop fuel el (new, 0)
        (with_browser st (world_after el (S k) (browser st))).
Proof.
  intros Hne. induction k as [|k IH]; intros a fuel st Hle Hstall Hnew.
  - change (S 0 + fuel) with (S fuel).
    rewrite scroll_loop_S, (pass_grow el last new a st Hnew Hne). reflexivity.
  - change (S (S k) + fuel) with (S (S k + fuel)).
    rewrite scroll_loop_S, pass_stall; [| apply Hstall; lia | lia].
    rewrite IH; [reflexivity | lia | |].
    + intros i Hi. apply (Hstall (S i)). lia.
    + exact Hnew.
Qed.

(** Passes that all measure [last], enough of them to take the counter past
    the threshold: the loop ends, at the latest on the last of them. *)
Lemma stalls_run_out (el : WebElement) (last : Z) (m : nat) :
  forall (a : nat) (st : state),
    (forall i, i < S m -> reading el i (browser st) = Ok last) ->
    max_scroll_attempts < a + S m ->
    exists k st', k <= S m /\
      forall fuel, k <= fuel -> scroll_loop fuel el (last, a) st = Some (Ok tt, st').
Proof.
  induction m as [|m IH]; intros a st Hstall Hsum.
  - exists 1. eexists. split; [lia|]. intros [|fuel] Hf; [lia|].
    rewrite scroll_loop_S, pass_break; [reflexivity | apply Hstall; lia | lia].
  - destruct (Nat.lt_ge_cases max_scroll_attempts (S a)) as [Hbrk|Hgo].
    + exists 1. eexists. split; [lia|]. intros [|fuel] Hf; [lia|].
      rewrite scroll_loop_S, pass_break; [reflexivity | apply Hstall; lia | lia].
    + destruct (IH (S a) (with_browser st (world_after el 1 (browser st))))
        as (k & st' & Hk & Hrun).
      * intros i Hi. apply (Hstall (S i)). lia.
      * lia.
      * exists (S k), st'. split; [lia|]. intros [|fuel] Hf; [lia|].
        rewrite scroll_loop_S, pass_stall; [| apply Hstall; lia | lia].
        apply Hrun. lia.
Qed.

(** From a counter at zero, eleven passes that measure [last] are exactly
    what it takes. *)
Lemma stalls_count_down (el : WebElement) (last : Z) (m : nat) :
  forall (a : nat) (st : state),
    a + S m = S max_scroll_attempts ->
    (forall i, i < S m -> reading el i (browser st) = Ok last) ->
    (forall fuel, fuel < S m -> scroll_loop fuel el (last, a) st = None)
    /\ (forall fuel, S m <= fuel ->
          scroll_loop fuel el (last, a) st
          = Some (Ok tt,
                  mk_state (world_after el (S m) (browser st)) (files st)
                    (log st ++ [stop_line]))).
Proof.
  induction m as [|m IH]; intros a st Hsum Hstall.
  - split; intros [|fuel] Hf; try lia; try reflexivity.
    rewrite scroll_loop_S, pass_break; [reflexivity | apply Hstall; lia | lia].
  - destruct (IH (S a) (with_browser st (world_after el 1 (browser st))))
      as [Hnone Hsome].
    + lia.
    + intros i Hi. apply (Hstall (S i)). lia.
    + split; intros [|fuel] Hf; try lia; try reflexivity;
        rewrite scroll_loop_S, pass_stall by (try apply Hstall; lia).
      * apply Hnone. lia.
      * rewrite Hsome by lia. reflexivity.
Qed.

End ScrollLoop.

Section ScrollLoopClaims.
Context `{Platform}.

(** Eleven passes in a row that measure the height of the pass before
    them, after [n] passes of any kind: the loop ends within [n + 11]
    passes. *)
Lemma stall_window (el : WebElement) (n : nat) :
  forall (last : Z) (a : nat) (st : state) (hs : nat -> Z),
    (forall i, i < n + 11 -> reading el i (browser st) = Ok (hs i)) ->
    (forall i, n <= i < n + 11 ->
       hs i = match i with O => last | S j => hs j end) ->
    exists k st', k <= n + 11 /\
      forall fuel, k <= fuel -> scroll_loop fuel el (last, a) st = Some (Ok tt, st').
Proof.
  induction n as [|n IH]; intros last a st hs Hread Hwin.
  - assert (Hall : forall i, i < 11 -> hs i = last).
    { induction i as [|i IHi]; intros Hi.
      - apply (Hwin 0). lia.
      - rewrite (Hwin (S i)) by lia. apply IHi. lia. }
    apply (stalls_run_out el last 10 a st).
    + intros i Hi. rewrite Hread by lia. f_equal. now apply Hall.
    + unfold max_scroll_attempts. lia.
  - assert (H0 : reading el 0 (browser st) = Ok (hs 0)) by (apply Hread; lia).
    destruct (IH (hs 0) (S a) (with_browser st (world_after el 1 (browser st)))
                (fun i => hs (S i))) as (k1 & st1 & Hk1 & Hrun1).
    { intros i Hi. apply (Hread (S i)). lia. }
    { intros i Hi. rewrite (Hwin (S i)) by lia. now destruct i. }
    destruct (IH (hs 0) 0 (with_browser st (world_after el 1 (browser st)))
                (fun i => hs (S i))) as (k0 & st0 & Hk0 & Hrun0).
    { intros i Hi. apply (Hread (S i)). lia. }
    { intros i Hi. rewrite (Hwin (S i)) by lia. now destruct i. }
    destruct (Z.eqb_spec (hs 0) last) as [Heq|Hne].
    + destruct (Nat.lt_ge_cases max_scroll_attempts (S a)) as [Hbrk|Hgo].
      * exists 1. eexists. split; [lia|]. intros [|fuel] Hf; [lia|].
        rewrite scroll_loop_S, pass_break; [reflexivity | congruence | lia].
      * exists (S k1), st1. split; [lia|]. intros [|fuel] Hf; [lia|].
        rewrite scroll_loop_S, pass_stall; [| congruence | lia].
        rewrite <- Heq. apply Hrun1. lia.
    + exists (S k0), st0. split; [lia|]. intros [|fuel] Hf; [lia|].
      rewrite scroll_loop_S, (pass_grow el last (hs 0) a st H0 Hne).
      apply Hrun0. lia.
Qed.

(** C2 (amended).  The loop ends once eleven passes in a row have measured
    an unchanged height: if that run starts after [n] passes, the loop ends
    within [n + 11] passes, whatever the counter was.  In particular, when
    the height never changes from the first measurement, the counter goes
    past the threshold of 10 on pass eleven: the loop is still running after
    ten passes and ends on the eleventh, having logged that it stops. *)
Theorem scroll_loop_stall_exit (el : WebElement) (st : state) (last : Z) :
  ((forall i, i < 11 -> reading el i (browser st) = Ok last) ->
   (forall fuel, fuel < 11 -> scroll_loop fuel el (last, 0) st = None)
   /\ (forall fuel, 11 <= fuel ->
         scroll_loop fuel el (last, 0) st
         = Some (Ok tt,
                 mk_state (world_after el 11 (browser st)) (files st)
                   (log st ++ [stop_line]))))
  /\ (forall (a n : nat) (hs : nat -> Z),
        (forall i, i < n + 11 -> reading el i (browser st) = Ok (hs i)) ->
        (forall i, n <= i < n + 11 ->
           hs i = match i with O => last | S j => hs j end) ->
        exists k st', k <= n + 11 /\
          forall fuel, k <= fuel ->
            scroll_loop fuel el (last, a) st = Some (Ok tt, st')).
Proof.
  split.
  - intros Hstall. apply (stalls_count_down el last 10 0 st); [reflexivity|].
    exact Hstall.
  - intros a n hs. apply stall_window.
Qed.

(** C3.  A pass that measures a height other than the last one puts the
    counter back to zero and goes on.  Hence [k] stalled passes that keep
    the counter within the threshold ([a + k <= 10]: from a counter at zero,
    up to ten of them), followed by a pass that measures another height, do
    not end the loop: after these [k + 1] passes it is running with the new
    height and a counter at zero. *)
Theorem scroll_loop_resets (el : WebElement) (st : state) (last new : Z) :
  new <> last ->
  (forall a,
     reading el 0 (browser st) = Ok new ->
     scroll_pass el (last, a) st
     = Some (Ok (Some (new, 0)),
             with_browser st (world_after el 1 (browser st))))
  /\ (forall a k fuel,
        a + k <= max_scroll_attempts ->
        (forall i, i < k -> reading el i (browser st) = Ok last) ->
        reading el k (browser st) = Ok new ->
        scroll_loop (S k + fuel) el (last, a) st
        = scroll_loop fuel el (new, 0)
            (with_browser st (world_after el (S k) (browser st)))).
Proof.
  intros Hne. split.
  - intros a Hr. now apply pass_grow.
  - intros a k fuel. now apply stalls_then_growth.
Qed.

End ScrollLoopClaims.

(* ------------------------------------------------------------------ *)
(** ** The scroll loop on scripted sessions *)

Lemma endless_loop (fuel : nat) :
  forall (n a : nat) (fs : Dict.t csv) (lg : list log_line),
    @scroll_loop Scripted.platform fuel Scripted.feed
      ((900 + 300 * Z.of_nat n)%Z, a)
      (@mk_state Scripted.platform (Scripted.endless_at n) fs lg)
    = None.
Proof.
  induction fuel as [|fuel IH]; intros n a fs lg; [reflexivity|].
  rewrite scroll_loop_S, scroll_pass_run.
  change (@scroll_and_measure Scripted.platform Scripted.feed
            (browser (@mk_state Scripted.platform (Scripted.endless_at n) fs lg)))
    with (@Ok Z (900 + 300 * Z.of_nat (S n))%Z, Scripted.endless_at (S n)).
  assert (Hne : ((900 + 300 * Z.of_nat (S n)) =? (900 + 300 * Z.of_nat n))%Z
                = false) by (apply Z.eqb_neq; lia).
  cbv beta iota. rewrite Hne. apply IH.
Qed.

(** C2 as stated fails: on a feed that grows with every scroll, no number
    of passes ends the loop. *)
Lemma endless_feed_never_stops :
  ~ (exists bound r,
       @scroll_loop Scripted.platform bound Scripted.feed (900%Z, 0)
         (Scripted.start Scripted.endless) = Some r).
Proof.
  intros (bound & r & Hr).
  pose proof (endless_loop bound 0 0 [] []) as Hnone.
  change (Scripted.endless_at 0) with Scripted.endless in Hnone.
  change (900 + 300 * Z.of_nat 0)%Z with 900%Z in Hnone.
  unfold Scripted.start in Hr. congruence.
Qed.

Lemma scroll_loop_stall_exit_witness :
  ((forall fuel, fuel < 11 ->
      @scroll_loop Scripted.platform fuel Scripted.feed (900%Z, 0)
        (Scripted.start (Scripted.still [])) = None)
   /\ (forall fuel, 11 <= fuel ->
         @scroll_loop Scripted.platform fuel Scripted.feed (900%Z, 0)
           (Scripted.start (Scripted.still []))
         = Some (Ok tt,
                 @mk_state Scripted.platform
                   (Scripted.mk_session (Ok tt) (fun _ => 900%Z) 11 [])
                   [] [stop_line])))
  /\ (exists k st', k <= 3 + 11 /\
        forall fuel, k <= fuel ->
          @scroll_loop Scripted.platform fuel Scripted.feed (900%Z, 0)
            (Scripted.start Scripted.settling) = Some (Ok tt, st')).
Proof.
  split.
  - apply (proj1 (@scroll_loop_stall_exit Scripted.platform Scripted.feed
                    (Scripted.start (Scripted.still [])) 900%Z)).
    intros i Hi. do 11 (destruct i as [|i]; [reflexivity|]). lia.
  - apply (proj2 (@scroll_loop_stall_exit Scripted.platform Scripted.feed
                    (Scripted.start Scripted.settling) 900%Z)
             0 3 (fun i => Z.min (900 + 300 * Z.of_nat (S i)) 1800)).
    + intros i Hi. do 14 (destruct i as [|i]; [reflexivity|]). lia.
    + intros i Hi. do 3 (destruct i as [|i]; [lia|]).
      do 11 (destruct i as [|i]; [reflexivity|]). lia.
Defined.

Lemma scroll_loop_resets_witness :
  1200%Z <> 900%Z
  /\ forall fuel,
       @scroll_loop Scripted.platform (S 9 + fuel) Scripted.feed (900%Z, 0)
         (Scripted.start Scripted.late_growth)
       = @scroll_loop Scripted.platform fuel Scripted.feed (1200%Z, 0)
           (@mk_state Scripted.platform
              (Scripted.mk_session (Ok tt) (Scripted.heights Scripted.late_growth)
                 10 [])
              [] []).
Proof.
  assert (Hne : 1200%Z <> 900%Z) by lia.
  split; [exact Hne|]. intros fuel.
  apply (proj2 (@scroll_loop_resets Scripted.platform Scripted.feed
                  (Scripted.start Scripted.late_growth) 900%Z 1200%Z Hne)
           0 9 fuel).
  - unfold max_scroll_attempts. lia.
  - intros i Hi. do 9 (destruct i as [|i]; [reflexivity|]). lia.
  - reflexivity.
Defined.

(* ------------------------------------------------------------------ *)
(** ** What the pieces of the monad preserve *)

Section Preservation.
Context `{Platform}.

Lemma keeps_files_ret {A} (a : A) : keeps_files (ret a).
Proof. intros st r st' E. injection E as <- <-. reflexivity. Qed.

Lemma keeps_files_raise {A} (e : exn) : keeps_files (@raise _ A e).
Proof. intros st r st' E. injection E as <- <-. reflexivity. Qed.

Lemma keeps_files_out_of_fuel {A} : keeps_files (@out_of_fuel _ A).
Proof. intros st r st' E. discriminate. Qed.

Lemma keeps_files_logger (lvl : level) (msg : pystr) :
  keeps_files (logger lvl msg).
Proof. intros st r st' E. injection E as <- <-. reflexivity. Qed.

Lemma keeps_files_sleep (a b : Z) : keeps_files (sleep a b).
Proof. intros st r st' E. injection E as <- <-. reflexivity. Qed.

Lemma keeps_files_pure_call {A} (r : outcome A) : keeps_files (pure_call r).
Proof. intros st r' st' E. injection E as <- <-. reflexivity. Qed.

Lemma keeps_files_now (format : pystr) : keeps_files (now format).
Proof. intros st r st' E. injection E as <- <-. reflexivity. Qed.

Lemma keeps_files_call {A} (op : world -> outcome A * world) :
  keeps_files (call op).
Proof.
  intros st r st' E. unfold call in E.
  destruct (op (browser st)). injection E as <- <-. reflexivity.
Qed.

Lemma keeps_files_bind {A B} (m : M A) (f : A -> M B) :
  keeps_files m -> (forall a, keeps_files (f a)) -> keeps_files (bind m f).
Proof.
  intros Hm Hf st r st' E. unfold bind in E.
  destruct (m st) as [[[a|e] st1]|] eqn:Em; [| |discriminate].
  - rewrite (Hf a _ _ _ E). exact (Hm _ _ _ Em).
  - injection E as <- <-. exact (Hm _ _ _ Em).
Qed.

Lemma keeps_files_try_except {A} (m : M A) (handler : exn -> M A) :
  keeps_files m -> (forall e, keeps_files (handler e)) ->
  keeps_files (try_except m handler).
Proof.
  intros Hm Hh st r st' E. unfold try_except in E.
  destruct (m st) as [[[a|e] st1]|] eqn:Em; [| |discriminate].
  - injection E as <- <-. exact (Hm _ _ _ Em).
  - rewrite (Hh e _ _ _ E). exact (Hm _ _ _ Em).
Qed.

Lemma keeps_files_for_in {A S} (xs : list A) (body : A -> S -> M S) :
  (forall x acc, keeps_files (body x acc)) ->
  forall acc, keeps_files (for_in xs acc body).
Proof.
  intros Hb. induction xs as [|x xs IH]; intros acc; simpl.
  - apply keeps_files_ret.
  - apply keeps_files_bind; auto.
Qed.

Lemma never_raises_ret {A} (a : A) : never_raises (ret a).
Proof. intros st r st' E. injection E as <- <-. eauto. Qed.

Lemma never_raises_logger (lvl : level) (msg : pystr) :
  never_raises (logger lvl msg).
Proof. intros st r st' E. injection E as <- <-. eauto. Qed.

Lemma never_raises_bind {A B} (m : M A) (f : A -> M B) :
  never_raises m -> (forall a, never_raises (f a)) -> never_raises (bind m f).
Proof.
  intros Hm Hf st r st' E. unfold bind in E.
  destruct (m st) as [[[a|e] st1]|] eqn:Em; [| |discriminate].
  - exact (Hf a _ _ _ E).
  - destruct (Hm _ _ _ Em) as [a Ha]. discriminate.
Qed.

(** A handler that returns makes the whole [try] return. *)
Lemma never_raises_try_except {A} (m : M A) (handler : exn -> M A) :
  (forall e, never_raises (handler e)) -> never_raises (try_except m handler).
Proof.
  intros Hh st r st' E. unfold try_except in E.
  destruct (m st) as [[[a|e] st1]|] eqn:Em; [| |discriminate].
  - injection E as <- <-. eauto.
  - exact (Hh e _ _ _ E).
Qed.

End Preservation.

Create HintDb scraper.

#[export] Hint Resolve keeps_files_ret keeps_files_raise keeps_files_out_of_fuel
  keeps_files_logger keeps_files_sleep keeps_files_pure_call keeps_files_now
  keeps_files_call never_raises_ret never_raises_logger : scraper.

(** Goes through a computation built from the pieces above. *)
Ltac through :=
  repeat (intros;
    first
      [ solve [auto with scraper]
      | apply keeps_files_bind
      | apply keeps_files_try_except
      | apply keeps_files_for_in
      | apply never_raises_bind
      | apply never_raises_try_except
      | match goal with
        | |- keeps_files (match ?x with _ => _ end) => destruct x
        | |- never_raises (match ?x with _ => _ end) => destruct x
        end ]).

Section Queries.
Context `{Platform} `{HtmlParser}.

Lemma keeps_files_scroll_loop (fuel : nat) (el : WebElement) :
  forall vars, keeps_files (scroll_loop fuel el vars).
Proof.
  induction fuel as [|fuel IH]; intros [last a]; simpl.
  - auto with scraper.
  - unfold scroll_pass. through.
Qed.

Lemma keeps_files_search_and_scrape (fuel : nat) (keyword district : pystr)
    (pages : Z) :
  keeps_files (search_and_scrape fuel keyword district pages).
Proof.
  unfold search_and_scrape, handle_consent, parse_results.
  through; apply keeps_files_scroll_loop.
Qed.

Lemma keeps_files_collect (fuel : nat) : keeps_files (collect fuel).
Proof.
  unfold collect. through; apply keeps_files_scroll_loop.
Qed.

Lemma keeps_files_setup : keeps_files setup_selenium_driver.
Proof. unfold setup_selenium_driver. through. Qed.

Lemma never_raises_handle_consent : never_raises handle_consent.
Proof. unfold handle_consent. through. Qed.

(** Navigation comes before the [try]: what [driver.get] raises leaves
    [search_and_scrape] as it is, with nothing logged about the query. *)
Lemma search_and_scrape_navigation_error (fuel : nat) (keyword district : pystr)
    (pages : Z) (st : state) (q : pystr) (e : exn) (w : world) :
  quote (query_of keyword district) = Ok q ->
  driver_get (url_of q) (browser st) = (Raise e, w) ->
  search_and_scrape fuel keyword district pages st
  = Some (Raise e,
          mk_state w (files st)
            (log st ++ [(INFO, py "Navigating to: " ++ url_of q)])).
Proof.
  intros Hq Hget. unfold search_and_scrape, bind, logger, pure_call, call.
  fold (query_of keyword district). rewrite Hq.
  unfold url_of in *. simpl in *. rewrite Hget. reflexivity.
Qed.

(** Once navigation has succeeded, whatever is raised is caught: the
    function returns a list whenever it ends. *)
Lemma search_and_scrape_catches (fuel : nat) (keyword district : pystr)
    (pages : Z) (st : state) (q : pystr) (w : world) :
  quote (query_of keyword district) = Ok q ->
  driver_get (url_of q) (browser st) = (Ok tt, w) ->
  forall r st',
    search_and_scrape fuel keyword district pages st = Some (r, st') ->
    exists businesses, r = Ok businesses.
Proof.
  intros Hq Hget r st'. unfold search_and_scrape.
  unfold bind at 1 2 3, logger at 1, pure_call, call at 1.
  fold (query_of keyword district). rewrite Hq.
  unfold url_of in *. simpl in *. rewrite Hget.
  apply never_raises_bind; [apply never_raises_handle_consent|].
  through.
Qed.

End Queries.

(** C1, where the code departs from it.  With the network down,
    [driver.get] raises before the [try] of [search_and_scrape] is entered:
    the exception reaches the caller, no list is returned, and the log holds
    the line on navigation and nothing about the failed query. *)
Theorem search_and_scrape_raises_offline :
  forall fuel,
    @search_and_scrape Scripted.platform Fixture.bs4 fuel
      (py "bike repair") (py "Dhaka") 5 (Scripted.start Scripted.offline)
    = Some
        (Raise (py "net::ERR_INTERNET_DISCONNECTED"),
         @mk_state Scripted.platform Scripted.offline []
           [(INFO,
             py "Navigating to: https://www.google.com/maps/search/bike%20repair%20in%20Dhaka%2C%20Bangladesh")]).
Proof. intros fuel. reflexivity. Qed.

(* ------------------------------------------------------------------ *)
(** ** Frames *)

Module PandasFacts.
Import Pandas.

Lemma has_column_In (col : pystr) (cols : list pystr) :
  has_column col cols = true <-> In col cols.
Proof.
  unfold has_column. rewrite existsb_exists. split.
  - intros (c & Hin & E). apply eqb_eq in E. now subst.
  - intros Hin. exists col. split; [assumption | apply eqb_refl].
Qed.

Lemma has_column_not_In (col : pystr) (cols : list pystr) :
  has_column col cols = false <-> ~ In col cols.
Proof.
  rewrite <- has_column_In. destruct (has_column col cols); split;
    congruence.
Qed.

Lemma index_of_absent (col : pystr) (cols : list pystr) :
  has_column col cols = false -> index_of col cols = None.
Proof.
  induction cols as [|c cols IH]; simpl; [reflexivity|].
  destruct (c =? col)%py; simpl; [discriminate|].
  intros E. now rewrite IH.
Qed.

Lemma index_of_present {B} (f : pystr -> B) (dflt : B) (col : pystr)
    (cols : list pystr) :
  has_column col cols = true ->
  exists i, index_of col cols = Some i /\ nth i (map f cols) dflt = f col.
Proof.
  induction cols as [|c cols IH]; simpl; [discriminate|].
  destruct (c =? col)%py eqn:E; simpl.
  - intros _. exists 0. apply eqb_eq in E. subst. auto.
  - intros Hc. destruct (IH Hc) as (i & Hi & Hn).
    exists (S i). rewrite Hi. auto.
Qed.

Lemma indices_present {B} (f : pystr -> B) (dflt : B)
    (subset cols : list pystr) :
  (forall c, In c subset -> has_column c cols = true) ->
  exists idx,
    indices subset cols = Some idx
    /\ map (fun i => nth i (map f cols) dflt) idx = map f subset.
Proof.
  induction subset as [|c subset IH]; intros Hall; simpl.
  - exists []. auto.
  - destruct (index_of_present f dflt c cols) as (i & Hi & Hn).
    { apply Hall. now left. }
    destruct IH as (idx & Hidx & Hmap).
    { intros c' Hc'. apply Hall. now right. }
    exists (i :: idx). rewrite Hi, Hidx. simpl. now rewrite Hn, Hmap.
Qed.

Lemma add_key_In (k c : pystr) (cols : list pystr) :
  In c (add_key cols k) <-> In c cols \/ c = k.
Proof.
  unfold add_key. destruct (has_column k cols) eqn:E.
  - apply has_column_In in E. split; [auto|]. intros [Hc| ->]; assumption.
  - rewrite in_app_iff. simpl. intuition congruence.
Qed.

Lemma add_keys_In (ks cols : list pystr) (c : pystr) :
  In c (fold_left add_key ks cols) <-> In c cols \/ In c ks.
Proof.
  revert cols; induction ks as [|k ks IH]; intros cols; simpl.
  - tauto.
  - rewrite IH, add_key_In. intuition congruence.
Qed.

Lemma union_keys_from (bs : list dict) (cols : list pystr) (c : pystr) :
  In c (fold_left (fun cols d => fold_left add_key (Dict.keys d) cols) bs cols)
  <-> In c cols \/ exists d, In d bs /\ In c (Dict.keys d).
Proof.
  revert cols; induction bs as [|b bs IH]; intros cols; simpl.
  - split; [auto|]. intros [Hc|(d & [] & _)]. assumption.
  - rewrite IH, add_keys_In. split.
    + intros [[Hc|Hb]|(d & Hd & Hk)]; eauto.
    + intros [Hc|(d & [->|Hd] & Hk)]; eauto.
Qed.

Lemma get_keys {V} (c : pystr) (d : Dict.t V) :
  Dict.get c d <> None <-> In c (Dict.keys d).
Proof.
  induction d as [|[k v] d IH]; simpl.
  - tauto.
  - destruct (k =? c)%py eqn:E.
    + apply eqb_eq in E. split; [auto | discriminate].
    + apply eqb_neq in E. rewrite IH. intuition congruence.
Qed.

(** A column of the frame is a key of some record. *)
Lemma union_keys_spec (bs : list dict) (c : pystr) :
  has_column c (union_keys bs) = true
  <-> exists d, In d bs /\ Dict.get c d <> None.
Proof.
  rewrite has_column_In. unfold union_keys. rewrite union_keys_from.
  split.
  - intros [[]|(d & Hd & Hk)]. exists d. now rewrite get_keys.
  - intros (d & Hd & Hk). right. exists d. now rewrite <- get_keys.
Qed.

End PandasFacts.

(* ------------------------------------------------------------------ *)
(** ** Writing the file *)

Section Normalisation.
Import Pandas PandasFacts.
Variable bs : list dict.

Lemma from_records_filled : frame_of_filled bs (from_records bs).
Proof.
  split; [|auto]. unfold from_records. simpl.
  apply map_ext. intros d. apply map_ext_in. intros c Hc.
  unfold filled. apply has_column_In in Hc. now rewrite Hc.
Qed.

Lemma fill_step_filled (df : DataFrame) (col : pystr) :
  frame_of_filled bs df ->
  frame_of_filled bs
    (if negb (has_column col (columns df)) then setitem col [] df else df)
  /\ In col
       (columns
          (if negb (has_column col (columns df)) then setitem col [] df else df))
  /\ forall c, In c (columns df) ->
       In c
         (columns
            (if negb (has_column col (columns df)) then setitem col [] df else df)).
Proof.
  intros [Hv Hc]. destruct (has_column col (columns df)) eqn:E; simpl.
  - apply has_column_In in E. repeat split; auto.
  - unfold setitem. rewrite (index_of_absent _ _ E). simpl.
    repeat split.
    + rewrite Hv, map_map. apply map_ext. intros d. cbn [columns].
      rewrite map_app. simpl. f_equal. unfold filled.
      destruct (has_column col (union_keys bs)) eqn:Eu; [|reflexivity].
      apply has_column_In, Hc, has_column_In in Eu. congruence.
    + intros c Hin. apply in_or_app. left. now apply Hc.
    + apply in_or_app. right. now left.
    + intros c Hin. apply in_or_app. now left.
Qed.

Lemma fill_filled (cs : list pystr) :
  forall df,
    frame_of_filled bs df ->
    let df' :=
      fold_left
        (fun df col =>
           if negb (has_column col (columns df)) then setitem col [] df else df)
        cs df in
    frame_of_filled bs df'
    /\ (forall c, In c cs -> In c (columns df'))
    /\ (forall c, In c (columns df) -> In c (columns df')).
Proof.
  induction cs as [|col cs IH]; intros df Hdf; simpl.
  - repeat split; try apply Hdf; auto. intros c [].
  - destruct (fill_step_filled df col Hdf) as (Hstep & Hcol & Hmono).
    destruct (IH _ Hstep) as (Hf & Hcs & Hkeep).
    repeat split; try apply Hf.
    + intros c [<-|Hc]; auto.
    + auto.
Qed.

(** The frame [save_to_csv] hands to [drop_duplicates]: the five expected
    columns, and for each record its five [filled] cells. *)
Lemma getitem_fill_missing :
  getitem expected_columns (fill_missing (from_records bs))
  = Ok (mk_df expected_columns
          (map (fun d => map (filled bs d) expected_columns) bs)).
Proof.
  destruct (fill_filled expected_columns (from_records bs) from_records_filled)
    as ([Hv _] & Hcs & _).
  fold (fill_missing (from_records bs)) in Hv, Hcs.
  unfold getitem.
  destruct (indices_present (fun c => c) [] expected_columns
              (columns (fill_missing (from_records bs)))) as (idx & Hidx & _).
  { intros c Hc. apply has_column_In. auto. }
  rewrite Hidx. do 2 f_equal. rewrite Hv, map_map.
  apply map_ext. intros d. unfold take.
  destruct (indices_present (filled bs d) None expected_columns
              (columns (fill_missing (from_records bs)))) as (idx' & Hidx' & Hmap).
  { intros c Hc. apply has_column_In. auto. }
  congruence.
Qed.

(** In the file, the cells of a record of [bs] read as its row. *)
Lemma render_filled (d : dict) :
  In d bs -> map render (map (filled bs d) expected_columns) = row_of d.
Proof.
  intros Hd. unfold row_of. rewrite map_map. apply map_ext. intros c.
  unfold filled. destruct (has_column c (union_keys bs)) eqn:E; [reflexivity|].
  destruct (Dict.get c d) eqn:G; [|reflexivity].
  assert (Hp : has_column c (union_keys bs) = true).
  { apply union_keys_spec. exists d. split; [assumption | congruence]. }
  congruence.
Qed.

(** Two records of [bs] have the same cells under name and address exactly
    when they have the same pair. *)
Lemma filled_key (d d' : dict) :
  In d bs -> In d' bs ->
  take [0; 2] (map (filled bs d) expected_columns)
  = take [0; 2] (map (filled bs d') expected_columns)
  <-> pair_of d = pair_of d'.
Proof.
  intros Hd Hd'. unfold take, pair_of, filled. simpl.
  assert (Hnone : forall c x, In x bs ->
            has_column c (union_keys bs) = false -> Dict.get c x = None).
  { intros c x Hx E. destruct (Dict.get c x) eqn:G; [|reflexivity].
    assert (Hp : has_column c (union_keys bs) = true).
    { apply union_keys_spec. exists x. split; [assumption | congruence]. }
    congruence. }
  destruct (has_column (py "name") (union_keys bs)) eqn:En;
    destruct (has_column (py "address") (union_keys bs)) eqn:Ea;
    rewrite ?(Hnone _ d Hd En), ?(Hnone _ d' Hd' En),
      ?(Hnone _ d Hd Ea), ?(Hnone _ d' Hd' Ea);
    split; intros E; congruence.
Qed.

End Normalisation.

Section Deduplication.
Import Pandas PandasFacts.

(** [drop_duplicates] on the frame of [bs] keeps the rows of the records
    [first_records] keeps. *)
Lemma keep_first_first_records (bs : list dict) :
  forall (ds seenD : list dict),
    incl ds bs -> incl seenD bs ->
    keep_first [0; 2]
      (map (fun d => take [0; 2] (map (filled bs d) expected_columns)) seenD)
      (map (fun d => map (filled bs d) expected_columns) ds)
    = map (fun d => map (filled bs d) expected_columns)
        (first_records (map pair_of seenD) ds).
Proof.
  induction ds as [|d ds IH]; intros seenD Hds Hseen; [reflexivity|].
  assert (Hd : In d bs) by (apply Hds; now left).
  assert (Hrest : incl ds bs) by (intros x Hx; apply Hds; now right).
  assert (Hiff :
    In (take [0; 2] (map (filled bs d) expected_columns))
       (map (fun d => take [0; 2] (map (filled bs d) expected_columns)) seenD)
    <-> In (pair_of d) (map pair_of seenD)).
  { rewrite !in_map_iff. split; intros (x & Hx & Hin); exists x;
      (split; [|assumption]).
    - apply (filled_key bs x d); auto.
    - apply (filled_key bs x d); auto. }
  cbn [map keep_first first_records].
  destruct (in_dec key_eq_dec _ _) as [Hk|Hk];
    destruct (in_dec pair_eq_dec _ _) as [Hp|Hp]; try tauto.
  - now apply IH.
  - cbn [map]. f_equal.
    apply (IH (d :: seenD)); [assumption|].
    intros x [<-|Hx]; auto.
Qed.

Lemma first_records_positions (ds : list dict) :
  forall (pre : list dict) (seen : list (option pystr * option pystr)),
    map (fun j => nth j (pre ++ ds) [])
      (first_occurrences seen (List.length pre) ds)
    = first_records seen ds.
Proof.
  induction ds as [|d ds IH]; intros pre seen; [reflexivity|].
  assert (Hshift : forall seen',
    map (fun j => nth j (pre ++ d :: ds) [])
      (first_occurrences seen' (S (List.length pre)) ds)
    = first_records seen' ds).
  { intros seen'. specialize (IH (pre ++ [d]) seen').
    rewrite <- app_assoc, length_app in IH. simpl in IH.
    now rewrite Nat.add_1_r in IH. }
  cbn [first_occurrences first_records].
  destruct (in_dec pair_eq_dec (pair_of d) seen).
  - apply Hshift.
  - cbn [map]. rewrite nth_middle, Hshift. reflexivity.
Qed.

(** The positions come out in increasing order, none below the start. *)
Lemma first_occurrences_sorted (ds : list dict) :
  forall (seen : list (option pystr * option pystr)) (i : nat),
    StronglySorted lt (first_occurrences seen i ds)
    /\ Forall (fun j => i <= j) (first_occurrences seen i ds).
Proof.
  induction ds as [|d ds IH]; intros seen i; simpl.
  - split; constructor.
  - destruct (in_dec pair_eq_dec (pair_of d) seen).
    + destruct (IH seen (S i)) as [Hs Hf]. split; [assumption|].
      eapply Forall_impl; [|exact Hf]. simpl. intros; lia.
    + destruct (IH (pair_of d :: seen) (S i)) as [Hs Hf]. split.
      * constructor; [assumption|].
        eapply Forall_impl; [|exact Hf]. simpl. intros; lia.
      * constructor; [lia|].
        eapply Forall_impl; [|exact Hf]. simpl. intros; lia.
Qed.

(** A position is kept exactly when no earlier record has its pair. *)
Lemma first_occurrences_spec (ds : list dict) :
  forall (pre : list dict) (seen : list (option pystr * option pystr)),
    (forall p, In p seen <-> In p (map pair_of pre)) ->
    forall i,
      In i (first_occurrences seen (List.length pre) ds)
      <-> List.length pre <= i < List.length (pre ++ ds)
          /\ forall j, j < i ->
               pair_of (nth j (pre ++ ds) []) <> pair_of (nth i (pre ++ ds) []).
Proof.
  induction ds as [|d ds IH]; intros pre seen Hseen i.
  - simpl. rewrite app_nil_r. split; [tauto | lia].
  - assert (Hstep : forall seen',
      (forall p, In p seen' <-> In p (map pair_of (pre ++ [d]))) ->
      In i (first_occurrences seen' (S (List.length pre)) ds)
      <-> S (List.length pre) <= i < List.length (pre ++ d :: ds)
          /\ forall j, j < i ->
               pair_of (nth j (pre ++ d :: ds) [])
               <> pair_of (nth i (pre ++ d :: ds) [])).
    { intros seen' Hseen'. specialize (IH (pre ++ [d]) seen' Hseen' i).
      rewrite <- app_assoc, length_app in IH. simpl in IH.
      now rewrite Nat.add_1_r in IH. }
    assert (Hearlier : In (pair_of d) seen <->
              exists j, j < List.length pre
                        /\ pair_of (nth j (pre ++ d :: ds) []) = pair_of d).
    { rewrite Hseen, in_map_iff. split.
      - intros (x & Hx & Hin). apply (In_nth _ _ []) in Hin as (j & Hj & Hn).
        exists j. split; [assumption|]. rewrite app_nth1 by assumption.
        subst x. exact Hx.
      - intros (j & Hj & Hp). rewrite app_nth1 in Hp by assumption.
        exists (nth j pre []). split; [assumption | now apply nth_In]. }
    cbn [first_occurrences].
    destruct (in_dec pair_eq_dec (pair_of d) seen) as [Hin|Hout].
    + rewrite Hstep.
      * split; intros [Hr Hf]; (split; [|assumption]); [lia|].
        destruct (Nat.eq_dec i (List.length pre)) as [->|]; [|lia].
        apply Hearlier in Hin as (j & Hj & Hp).
        exfalso. apply (Hf j Hj). now rewrite nth_middle.
      * intros p. rewrite map_app, in_app_iff, <- Hseen. simpl.
        split; [auto|]. intros [Hp|[<-|[]]]; assumption.
    + cbn [In]. rewrite Hstep.
      * split.
        -- intros [<-|[Hr Hf]]; [|split; [lia | assumption]].
           rewrite length_app. simpl. split; [lia|].
           intros j Hj Hp. rewrite nth_middle in Hp.
           apply Hout, Hearlier. eauto.
        -- intros [Hr Hf].
           destruct (Nat.eq_dec i (List.length pre)) as [->|]; [now left|].
           right. split; [lia | assumption].
      * intros p. rewrite map_app, in_app_iff, <- Hseen. simpl.
        intuition congruence.
Qed.

End Deduplication.

Section Saving.
Context `{Platform}.
Import Pandas PandasFacts.

Lemma first_records_incl (ds : list dict) :
  forall seen d, In d (first_records seen ds) -> In d ds.
Proof.
  induction ds as [|x ds IH]; intros seen d; simpl; [tauto|].
  destruct (in_dec pair_eq_dec (pair_of x) seen).
  - intros Hd. right. eapply IH, Hd.
  - intros [<-|Hd]; [now left|]. right. eapply IH, Hd.
Qed.

(** [save_to_csv] on a list that is not empty: it returns, having written
    [saved_csv] under [filename] and logged the count. *)
Lemma save_to_csv_run (bs : list dict) (filename : pystr) (st : state) :
  bs <> [] ->
  save_to_csv bs filename st
  = Some (Ok tt,
          mk_state (browser st)
            (Dict.set filename (saved_csv bs) (files st))
            (log st ++ [saved_line bs filename])).
Proof.
  intros Hne.
  assert (Hrun :
    save_to_csv bs filename
    = bind (pure_call (getitem expected_columns (fill_missing (from_records bs))))
        (fun df =>
           bind (pure_call (drop_duplicates [py "name"; py "address"] df))
             (fun df_unique =>
                bind (write_file filename (to_csv df_unique))
                  (fun _ =>
                     logger INFO
                       ([9989%N] ++ py " Saved " ++ str_of_nat (len df_unique)
                        ++ py " unique businesses to " ++ filename))))).
  { destruct bs; [contradiction | reflexivity]. }
  rewrite Hrun, getitem_fill_missing. clear Hrun.
  unfold bind at 1. unfold pure_call at 1.
  change (drop_duplicates [py "name"; py "address"]
            (mk_df expected_columns
               (map (fun d => map (filled bs d) expected_columns) bs)))
    with (Ok (mk_df expected_columns
                (keep_first [0; 2] []
                   (map (fun d => map (filled bs d) expected_columns) bs)))).
  pose proof (keep_first_first_records bs bs [] (incl_refl bs)
                (incl_nil_l bs)) as Hkeep.
  cbn [map] in Hkeep. rewrite Hkeep. clear Hkeep.
  unfold bind, pure_call, write_file, logger, to_csv, len, saved_csv,
    saved_line.
  cbn [columns values browser files log].
  rewrite !length_map, map_map.
  rewrite (map_ext_in _ row_of); [reflexivity|].
  intros d Hd. apply render_filled.
  eapply first_records_incl, Hd.
Qed.

End Saving.

Section FirstRecords.

Lemma first_records_fresh (ds : list dict) :
  forall seen d, In d (first_records seen ds) -> ~ In (pair_of d) seen.
Proof.
  induction ds as [|x ds IH]; intros seen d; simpl; [tauto|].
  destruct (in_dec pair_eq_dec (pair_of x) seen) as [Hin|Hout].
  - apply IH.
  - intros [<-|Hd]; [assumption|].
    intros Hs. apply (IH _ _ Hd). now right.
Qed.

Lemma first_records_NoDup (ds : list dict) :
  forall seen, NoDup (map pair_of (first_records seen ds)).
Proof.
  induction ds as [|x ds IH]; intros seen; simpl; [constructor|].
  destruct (in_dec pair_eq_dec (pair_of x) seen) as [Hin|Hout]; [apply IH|].
  simpl. constructor; [|apply IH].
  rewrite in_map_iff. intros (d & Hp & Hd).
  apply (first_records_fresh _ _ _ Hd). rewrite Hp. now left.
Qed.

(** A kept record is the first of its pair. *)
Lemma first_records_first (ds : list dict) :
  forall seen d,
    In d (first_records seen ds) ->
    exists l1 l2,
      ds = l1 ++ d :: l2 /\ forall x, In x l1 -> pair_of x <> pair_of d.
Proof.
  induction ds as [|x ds IH]; intros seen d; simpl; [tauto|].
  destruct (in_dec pair_eq_dec (pair_of x) seen) as [Hin|Hout].
  - intros Hd. destruct (IH _ _ Hd) as (l1 & l2 & -> & Hl1).
    exists (x :: l1), l2. split; [reflexivity|].
    intros y [<-|Hy]; [|auto].
    intros E. apply (first_records_fresh _ _ _ Hd). now rewrite <- E.
  - intros [<-|Hd].
    + exists [], ds. split; [reflexivity | intros y []].
    + destruct (IH _ _ Hd) as (l1 & l2 & -> & Hl1).
      exists (x :: l1), l2. split; [reflexivity|].
      intros y [<-|Hy]; [|auto].
      intros E. apply (first_records_fresh _ _ _ Hd). rewrite <- E. now left.
Qed.

Lemma NoDup_map_transfer {A B C} (f : A -> B) (g : A -> C) (l : list A) :
  (forall x y, In x l -> In y l -> g x = g y -> f x = f y) ->
  NoDup (map f l) -> NoDup (map g l).
Proof.
  induction l as [|a l IH]; intros Hinj Hnd; simpl; [constructor|].
  inversion Hnd as [|? ? Hnotin Hnd']; subst. constructor.
  - rewrite in_map_iff. intros (y & Hy & Hin). apply Hnotin.
    rewrite in_map_iff. exists y. split; [|assumption].
    apply Hinj; simpl; auto.
  - apply IH; [|assumption]. intros x y Hx Hy. apply Hinj; simpl; auto.
Qed.

(** The pair of the row of a record with a name and an address is the pair
    of the record. *)
Lemma name_address_row_of (d : dict) :
  name_address (row_of d)
  = (Pandas.render (Dict.get (py "name") d),
     Pandas.render (Dict.get (py "address") d)).
Proof. reflexivity. Qed.

Lemma keyed_pair (d d' : dict) :
  keyed d -> keyed d' ->
  name_address (row_of d) = name_address (row_of d') -> pair_of d = pair_of d'.
Proof.
  intros [Hn Ha] [Hn' Ha']. rewrite !name_address_row_of. unfold pair_of.
  destruct (Dict.get (py "name") d), (Dict.get (py "address") d),
    (Dict.get (py "name") d'), (Dict.get (py "address") d');
    try contradiction; simpl; congruence.
Qed.

Lemma same_pair_refl (d : dict) : same_pair (row_of d) d = true.
Proof. unfold same_pair. now rewrite !eqb_refl. Qed.

Lemma same_pair_other (d x : dict) :
  keyed d -> keyed x -> pair_of x <> pair_of d ->
  same_pair (row_of d) x = false.
Proof.
  intros Hd Hx Hne. destruct (same_pair (row_of d) x) eqn:E; [|reflexivity].
  exfalso. apply Hne, keyed_pair; try assumption.
  unfold same_pair in E. apply andb_prop in E as [E0 E2].
  apply eqb_eq in E0, E2. unfold name_address. congruence.
Qed.

Lemma find_first (d : dict) (l1 l2 : list dict) :
  (forall x, In x l1 -> same_pair (row_of d) x = false) ->
  List.find (same_pair (row_of d)) (l1 ++ d :: l2) = Some d.
Proof.
  induction l1 as [|x l1 IH]; intros Hl1; simpl.
  - now rewrite same_pair_refl.
  - rewrite Hl1 by now left. apply IH. intros y Hy. apply Hl1. now right.
Qed.

(** No pair is lost: a record is kept for every pair that is not in
    [seen]. *)
Lemma first_records_covers (ds : list dict) :
  forall seen d,
    In d ds ->
    In (pair_of d) seen
    \/ exists d', In d' (first_records seen ds) /\ pair_of d' = pair_of d.
Proof.
  induction ds as [|x ds IH]; intros seen d Hd; [destruct Hd|].
  simpl. destruct (in_dec pair_eq_dec (pair_of x) seen) as [Hin|Hout].
  - destruct Hd as [->|Hd]; [now left | now apply IH].
  - destruct Hd as [->|Hd].
    + right. exists d. split; [now left | reflexivity].
    + destruct (IH (pair_of x :: seen) d Hd) as [[E|Hs]|(d' & Hd' & E)].
      * right. exists x. split; [now left | assumption].
      * now left.
      * right. exists d'. split; [now right | assumption].
Qed.

Lemma find_pointwise {A : Type} (f g : A -> bool) (l : list A) :
  (forall x, f x = g x) -> List.find f l = List.find g l.
Proof.
  intros E. induction l as [|x l IH]; [reflexivity|].
  simpl. now rewrite E, IH.
Qed.

(** Rows that agree on the pair select the same records. *)
Lemma same_pair_ext (d d' : dict) :
  pair_of d = pair_of d' ->
  forall x, same_pair (row_of d) x = same_pair (row_of d') x.
Proof.
  unfold pair_of. intros E x. injection E as En Ea.
  unfold same_pair.
  change (nth 0 (row_of d) []) with (Pandas.render (Dict.get (py "name") d)).
  change (nth 2 (row_of d) []) with (Pandas.render (Dict.get (py "address") d)).
  change (nth 0 (row_of d') []) with (Pandas.render (Dict.get (py "name") d')).
  change (nth 2 (row_of d') []) with (Pandas.render (Dict.get (py "address") d')).
  now rewrite En, Ea.
Qed.

End FirstRecords.

(* ------------------------------------------------------------------ *)
(** ** The written file *)

Section SavingClaims.
Context `{Platform}.

(** C4.  For a list of records that is not empty, each record carrying a
    name and an address as the records of [parse_results] do,
    [save_to_csv] returns and the file holds no two rows with the same
    (name, address) pair; each row is the row of the first record of the
    list that has its pair; and every pair is retained: for each record of
    the list, the row of the first record that has its pair is in the
    file. *)
Theorem save_to_csv_unique_first (bs : list dict) (filename : pystr)
    (st : state) :
  bs <> [] ->
  Forall keyed bs ->
  exists st' content,
    save_to_csv bs filename st = Some (Ok tt, st')
    /\ Dict.get filename (files st') = Some content
    /\ NoDup (map name_address (body content))
    /\ (forall row,
          In row (body content) ->
          exists d, List.find (same_pair row) bs = Some d /\ row = row_of d)
    /\ forall d,
         In d bs ->
         exists d0,
           List.find (same_pair (row_of d)) bs = Some d0
           /\ In (row_of d0) (body content).
Proof.
  intros Hne Hkeyed. rewrite Forall_forall in Hkeyed.
  assert (Hfirst : forall d,
            In d (first_records [] bs) ->
            List.find (same_pair (row_of d)) bs = Some d).
  { intros d Hd.
    destruct (first_records_first _ _ _ Hd) as (l1 & l2 & Hbs & Hl1).
    rewrite Hbs. apply find_first. intros x Hx.
    apply same_pair_other; [apply Hkeyed | apply Hkeyed | auto].
    - eapply first_records_incl; eassumption.
    - rewrite Hbs. apply in_or_app. now left. }
  eexists. exists (saved_csv bs).
  split; [apply save_to_csv_run; assumption|].
  split; [apply get_set_same|].
  unfold saved_csv. cbn [body]. split; [|split].
  - rewrite map_map.
    apply (NoDup_map_transfer pair_of (fun d => name_address (row_of d))).
    + intros x y Hx Hy. apply keyed_pair; apply Hkeyed;
        eapply first_records_incl; eassumption.
    + apply first_records_NoDup.
  - intros row Hrow. apply in_map_iff in Hrow as (d & <- & Hd).
    exists d. split; [now apply Hfirst | reflexivity].
  - intros d Hd.
    destruct (first_records_covers bs [] d Hd) as [[]|(d0 & Hd0 & E)].
    exists d0. split; [|now apply in_map].
    rewrite (find_pointwise _ _ bs (same_pair_ext d d0 (eq_sym E))).
    now apply Hfirst.
Qed.

(** C7.  For a list of records that is not empty, [save_to_csv] returns
    and the file has the columns name, phone, address, district, category,
    in this order.  Every row is the row of a record of the list: under
    each column the value the record has for it, and the empty string where
    the record has none; so every row has five fields, and a field that no
    record of the list has is empty in every row.  Every record is
    written: the file has such a row for a record with its pair. *)
Theorem save_to_csv_columns (bs : list dict) (filename : pystr) (st : state) :
  bs <> [] ->
  exists st' content,
    save_to_csv bs filename st = Some (Ok tt, st')
    /\ Dict.get filename (files st') = Some content
    /\ header content
       = [py "name"; py "phone"; py "address"; py "district"; py "category"]
    /\ (forall row, In row (body content) -> List.length row = 5)
    /\ (forall i col,
          nth_error (header content) i = Some col ->
          (forall d, In d bs -> Dict.get col d = None) ->
          forall row, In row (body content) -> nth_error row i = Some [])
    /\ (forall row,
          In row (body content) ->
          exists d,
            In d bs
            /\ row
               = map (fun col =>
                        match Dict.get col d with Some v => v | None => [] end)
                   (header content))
    /\ forall d,
         In d bs ->
         exists d0,
           In d0 bs /\ pair_of d0 = pair_of d
           /\ In (map (fun col =>
                         match Dict.get col d0 with Some v => v | None => [] end)
                    (header content))
                (body content).
Proof.
  intros Hne. eexists. exists (saved_csv bs).
  split; [apply save_to_csv_run; assumption|].
  split; [apply get_set_same|].
  split; [reflexivity|]. unfold saved_csv. cbn [body header].
  split; [|split; [|split]].
  - intros row Hrow. apply in_map_iff in Hrow as (d & <- & _). reflexivity.
  - intros i col Hcol Habsent row Hrow.
    apply in_map_iff in Hrow as (d & <- & Hd).
    unfold row_of. rewrite nth_error_map, Hcol. simpl.
    rewrite Habsent; [reflexivity|].
    eapply first_records_incl; eassumption.
  - intros row Hrow. apply in_map_iff in Hrow as (d & <- & Hd).
    exists d. split; [|reflexivity].
    eapply first_records_incl; eassumption.
  - intros d Hd.
    destruct (first_records_covers bs [] d Hd) as [[]|(d0 & Hd0 & E)].
    exists d0. split; [|split; [exact E|]].
    + eapply first_records_incl; eassumption.
    + exact (in_map row_of _ _ Hd0).
Qed.

(** C10.  For a list of records that is not empty, the rows of the file
    are the rows of the records at increasing positions of the list, and
    these positions are exactly those of the first occurrences: the
    positions whose pair no earlier record has. *)
Theorem save_to_csv_keeps_order (bs : list dict) (filename : pystr)
    (st : state) :
  bs <> [] ->
  exists st' content positions,
    save_to_csv bs filename st = Some (Ok tt, st')
    /\ Dict.get filename (files st') = Some content
    /\ body content = map (fun i => row_of (nth i bs [])) positions
    /\ StronglySorted lt positions
    /\ forall i,
         In i positions
         <-> i < List.length bs
             /\ forall j, j < i ->
                  pair_of (nth j bs []) <> pair_of (nth i bs []).
Proof.
  intros Hne. eexists. exists (saved_csv bs), (first_occurrences [] 0 bs).
  split; [apply save_to_csv_run; assumption|].
  split; [apply get_set_same|].
  unfold saved_csv. cbn [body]. split; [|split].
  - rewrite <- (first_records_positions bs [] []), map_map. reflexivity.
  - apply first_occurrences_sorted.
  - intros i.
    rewrite (first_occurrences_spec bs [] [] (fun p => iff_refl _) i).
    simpl. split; intros [Hr Hf]; (split; [lia | assumption]).
Qed.

End SavingClaims.

Section MainClaims.
Context `{Platform} `{HtmlParser}.

(** C8.  On an empty list [save_to_csv] logs a warning and returns, the
    files as they were.  And when the loops of [main] have accumulated
    nothing, every query having returned no record, [main] ends with the
    files as they were before it started, and its warning in the log. *)
Theorem save_to_csv_empty_noop :
  (forall filename st,
     save_to_csv [] filename st
     = Some (Ok tt,
             mk_state (browser st) (files st)
               (log st ++ [(WARNING, py "No data to save.")])))
  /\ (forall fuel st st1 st2,
        setup_selenium_driver st = Some (Ok tt, st1) ->
        collect fuel st1 = Some (Ok [], st2) ->
        exists r st' more,
          main fuel st = Some (r, st')
          /\ files st' = files st
          /\ log st'
             = log st2
               ++ (WARNING, py "Scraping finished, but no businesses were found.")
               :: more).
Proof.
  split; [reflexivity|].
  intros fuel st st1 st2 Hsetup Hcollect.
  assert (Hfiles : files st2 = files st).
  { rewrite (keeps_files_collect _ _ _ _ Hcollect).
    exact (keeps_files_setup _ _ _ Hsetup). }
  unfold main, bind at 1. rewrite Hsetup.
  unfold try_finally, try_except, bind at 1. rewrite Hcollect.
  unfold persist, logger at 1, close, bind, call. cbn [browser files log].
  destruct (driver_quit (browser st2)) as [[[]|e] w].
  - do 3 eexists. split; [reflexivity|]. split; [exact Hfiles|].
    cbn [log]. rewrite <- app_assoc. reflexivity.
  - do 3 eexists. split; [reflexivity|]. split; [exact Hfiles|].
    cbn [log]. reflexivity.
Qed.

End MainClaims.

(* ------------------------------------------------------------------ *)
(** ** The claims on the fixture *)

Lemma accumulated_keyed :
  Fixture.accumulated <> [] /\ Forall keyed Fixture.accumulated.
Proof.
  split; [discriminate|].
  unfold Fixture.accumulated. apply Forall_app.
  split; rewrite parse_listings_filter; apply Forall_forall;
    intros d Hd; apply in_map_iff in Hd as (l & <- & _);
    apply extract_keyed.
Qed.

Lemma save_to_csv_unique_first_witness :
  exists st' content,
    @save_to_csv Scripted.platform Fixture.accumulated (py "out.csv")
      (Scripted.start (Scripted.still [])) = Some (Ok tt, st')
    /\ Dict.get (py "out.csv") (files st') = Some content
    /\ NoDup (map name_address (body content))
    /\ (forall row,
          In row (body content) ->
          exists d,
            List.find (same_pair row) Fixture.accumulated = Some d
            /\ row = row_of d)
    /\ forall d,
         In d Fixture.accumulated ->
         exists d0,
           List.find (same_pair (row_of d)) Fixture.accumulated = Some d0
           /\ In (row_of d0) (body content).
Proof.
  apply (@save_to_csv_unique_first Scripted.platform Fixture.accumulated
           (py "out.csv") (Scripted.start (Scripted.still []))).
  - vm_compute. discriminate.
  - vm_compute. repeat (constructor; [split; discriminate|]). constructor.
Defined.

Lemma save_to_csv_columns_witness :
  exists st' content,
    @save_to_csv Scripted.platform Fixture.bare (py "out.csv")
      (Scripted.start (Scripted.still [])) = Some (Ok tt, st')
    /\ Dict.get (py "out.csv") (files st') = Some content
    /\ header content
       = [py "name"; py "phone"; py "address"; py "district"; py "category"]
    /\ (forall row, In row (body content) -> List.length row = 5)
    /\ (forall i col,
          nth_error (header content) i = Some col ->
          (forall d, In d Fixture.bare -> Dict.get col d = None) ->
          forall row, In row (body content) -> nth_error row i = Some [])
    /\ (forall row,
          In row (body content) ->
          exists d,
            In d Fixture.bare
            /\ row
               = map (fun col =>
                        match Dict.get col d with Some v => v | None => [] end)
                   (header content))
    /\ forall d,
         In d Fixture.bare ->
         exists d0,
           In d0 Fixture.bare /\ pair_of d0 = pair_of d
           /\ In (map (fun col =>
                         match Dict.get col d0 with Some v => v | None => [] end)
                    (header content))
                (body content).
Proof.
  apply (@save_to_csv_columns Scripted.platform Fixture.bare
           (py "out.csv") (Scripted.start (Scripted.still []))).
  vm_compute. discriminate.
Defined.

Lemma save_to_csv_keeps_order_witness :
  exists st' content positions,
    @save_to_csv Scripted.platform Fixture.accumulated (py "out.csv")
      (Scripted.start (Scripted.still [])) = Some (Ok tt, st')
    /\ Dict.get (py "out.csv") (files st') = Some content
    /\ body content
       = map (fun i => row_of (nth i Fixture.accumulated [])) positions
    /\ StronglySorted lt positions
    /\ forall i,
         In i positions
         <-> i < List.length Fixture.accumulated
             /\ forall j, j < i ->
                  pair_of (nth j Fixture.accumulated [])
                  <> pair_of (nth i Fixture.accumulated []).
Proof.
  apply (@save_to_csv_keeps_order Scripted.platform Fixture.accumulated
           (py "out.csv") (Scripted.start (Scripted.still []))).
  vm_compute. discriminate.
Defined.

Lemma save_to_csv_empty_noop_witness :
  exists st2 r st' more,
    @collect Scripted.platform Fixture.bs4 11 (Scripted.start (Scripted.still []))
    = Some (Ok [], st2)
    /\ @main Scripted.platform Fixture.bs4 11 (Scripted.start (Scripted.still []))
       = Some (r, st')
    /\ files st' = files (Scripted.start (Scripted.still []))
    /\ log st'
       = log st2
         ++ (WARNING, py "Scraping finished, but no businesses were found.")
         :: more.
Proof.
  assert (Hc : exists st2,
            @collect Scripted.platform Fixture.bs4 11
              (Scripted.start (Scripted.still [])) = Some (Ok [], st2)).
  { vm_compute. eexists. reflexivity. }
  destruct Hc as [st2 Hc]. exists st2.
  destruct (proj2 (@save_to_csv_empty_noop Scripted.platform Fixture.bs4)
              11 (Scripted.start (Scripted.still []))
              (Scripted.start (Scripted.still [])) st2 eq_refl Hc)
    as (r & st' & more & Hmain & Hfiles & Hlog).
  exists r, st', more. auto.
Defined.

(** The files of the fixture, as they are written. *)
Example accumulated_file :
  body (saved_csv Fixture.accumulated)
  = [[py "Dhaka Bikes"; py "01700-000000"; py "Dhaka"; py "Dhaka";
      py "motorcycle"];
     [py "Moto Fix"; []; py "45 Lake Rd"; py "Dhaka"; py "motorcycle"]].
Proof. reflexivity. Qed.

Example bare_file :
  body (saved_csv Fixture.bare)
  = [[py "Dhaka Bikes"; []; []; []; []]; [py "Moto Fix"; []; []; []; []]].
Proof. reflexivity. Qed.

(** Offline, [main] stops at the first query: the exception of
    [search_and_scrape] reaches the handler of [main], the three other
    keywords are never searched, and nothing is written. *)
Example main_offline :
  exists st',
    @main Scripted.platform Fixture.bs4 11 (Scripted.start Scripted.offline)
    = Some (Ok tt, st')
    /\ files st' = []
    /\ map fst (log st') = [INFO; INFO; INFO; CRITICAL; INFO].
Proof. eexists. vm_compute. repeat split. Qed.

(* ================================================================== *)
(** * Further properties *)

(* ------------------------------------------------------------------ *)
(** ** The loader around the scroll loop *)

Section LoaderFacts.
Context `{Platform} `{HtmlParser}.

(** X1.  [handle_consent] always returns: whether the button is clicked,
    is not found in time, or cannot be clicked, nothing is raised, no file
    is touched and exactly one INFO line is logged, one of the two of the
    source. *)
Theorem handle_consent_returns (st : state) :
  exists st' msg,
    handle_consent st = Some (Ok tt, st')
    /\ files st' = files st
    /\ log st' = log st ++ [(INFO, msg)]
    /\ (msg = consent_clicked \/ msg = consent_absent).
Proof.
  unfold handle_consent, try_except, bind, call, logger, sleep.
  destruct (until_element_to_be_clickable 10
              (XPATH,
               py "//button[.//span[text()=" ++ dquote ++ py "Accept all"
               ++ dquote ++ py "]]") (browser st)) as [[button|e] w];
    cbn [browser files log].
  - destruct (click button w) as [[[]|e] w']; cbn [browser files log];
      do 2 eexists; repeat split; auto.
  - do 2 eexists; repeat split; auto.
Qed.

(** X2.  When the driver cannot be started, the failure is logged as an
    ERROR and raised again, and [main] stops there: the same exception
    leaves [main], nothing is searched, written or closed, and no other
    line is logged. *)
Theorem main_setup_failure (fuel : nat) (st : state) (e : exn) (w : world) :
  webdriver_Chrome (browser st) = (Raise e, w) ->
  main fuel st
  = Some (Raise e,
          mk_state w (files st)
            (log st
             ++ [(ERROR, py "Failed to initialize Selenium WebDriver: " ++ e)])).
Proof.
  intros Hchrome.
  unfold main, setup_selenium_driver, bind at 1, try_except, call.
  rewrite Hchrome. reflexivity.
Qed.

(** [search_and_scrape] once navigation and the consent step are over: it
    returns what the body of its [try] returns, and the empty list, with
    the error line of the query, when the body raises. *)
Lemma search_and_scrape_steps (fuel : nat) (keyword district : pystr)
    (pages : Z) (st st2 : state) (q : pystr) (w : world) :
  quote (query_of keyword district) = Ok q ->
  driver_get (url_of q) (browser st) = (Ok tt, w) ->
  handle_consent (mk_state w (files st) (log st ++ [navigating_line q]))
  = Some (Ok tt, st2) ->
  search_and_scrape fuel keyword district pages st
  = match scrape_body fuel keyword district st2 with
    | Some (Ok businesses, st3) => Some (Ok businesses, st3)
    | Some (Raise e, st3) =>
        Some (Ok [],
              mk_state (browser st3) (files st3)
                (log st3 ++ [error_line keyword district e]))
    | None => None
    end.
Proof.
  intros Hq Hget Hconsent.
  assert (Hsteps :
    search_and_scrape fuel keyword district pages st
    = match quote (query_of keyword district) with
      | Ok q =>
          match driver_get (url_of q) (browser st) with
          | (Ok _, w) =>
              bind handle_consent
                (fun _ =>
                   bind
                     (try_except (scrape_body fuel keyword district)
                        (fun e =>
                           bind (logger (fst (error_line keyword district e))
                                   (snd (error_line keyword district e)))
                             (fun _ => ret [])))
                     (fun businesses => ret businesses))
                (mk_state w (files st) (log st ++ [navigating_line q]))
          | (Raise e, w) =>
              Some (Raise e,
                    mk_state w (files st) (log st ++ [navigating_line q]))
          end
      | Raise e => Some (Raise e, st)
      end).
  { unfold search_and_scrape, bind at 1, pure_call.
    fold (query_of keyword district).
    destruct (quote (query_of keyword district)) as [q'|e]; [|reflexivity].
    unfold bind at 1, logger at 1. unfold bind at 1, call at 1.
    cbn [browser files log]. fold (url_of q').
    destruct (driver_get (url_of q') (browser st)) as [[[]|e] w'];
      reflexivity. }
  rewrite Hsteps, Hq, Hget. unfold bind at 1. rewrite Hconsent.
  unfold bind, try_except, logger, ret.
  destruct (scrape_body fuel keyword district st2) as [[[bs|e] st3]|];
    reflexivity.
Qed.

(** X3.  A failure of the query after navigation (waiting for the
    results, locating the container, scrolling, reading the page) is caught:
    [search_and_scrape] returns the empty list, whatever had been loaded,
    and the last line of the log is the ERROR line that names the query and
    carries the trace. *)
Theorem search_and_scrape_query_failure (fuel : nat)
    (keyword district : pystr) (pages : Z) (st st2 st3 : state)
    (q : pystr) (w : world) (e : exn) :
  quote (query_of keyword district) = Ok q ->
  driver_get (url_of q) (browser st) = (Ok tt, w) ->
  handle_consent (mk_state w (files st) (log st ++ [navigating_line q]))
  = Some (Ok tt, st2) ->
  scrape_body fuel keyword district st2 = Some (Raise e, st3) ->
  search_and_scrape fuel keyword district pages st
  = Some (Ok [],
          mk_state (browser st3) (files st3)
            (log st3 ++ [error_line keyword district e])).
Proof.
  intros Hq Hget Hconsent Hbody.
  rewrite (search_and_scrape_steps fuel keyword district pages st st2 q w
             Hq Hget Hconsent), Hbody.
  reflexivity.
Qed.

(** X4.  Once [driver.get] has returned, nothing is raised to the
    caller: whenever [search_and_scrape] ends, it returns a list. *)
Theorem search_and_scrape_returns_list (fuel : nat)
    (keyword district : pystr) (pages : Z) (st : state) (q : pystr)
    (w : world) (r : outcome (list dict)) (st' : state) :
  quote (query_of keyword district) = Ok q ->
  driver_get (url_of q) (browser st) = (Ok tt, w) ->
  search_and_scrape fuel keyword district pages st = Some (r, st') ->
  exists businesses, r = Ok businesses.
Proof.
  intros Hq Hget Hrun.
  exact (search_and_scrape_catches fuel keyword district pages st q w
           Hq Hget r st' Hrun).
Qed.

(** X5.  [search_and_scrape] writes nothing: however it ends, the files
    are those it found. *)
Theorem search_and_scrape_writes_nothing (fuel : nat)
    (keyword district : pystr) (pages : Z) (st : state)
    (r : outcome (list dict)) (st' : state) :
  search_and_scrape fuel keyword district pages st = Some (r, st') ->
  files st' = files st.
Proof.
  revert st r st'.
  change (keeps_files (search_and_scrape fuel keyword district pages)).
  unfold search_and_scrape, handle_consent, parse_results.
  through; apply keeps_files_scroll_loop.
Qed.

(** The argument [pages] has no effect: [search_and_scrape] does the same
    for every value of it. *)
Lemma search_and_scrape_ignores_pages (fuel : nat)
    (keyword district : pystr) (pages pages' : Z) (st : state) :
  search_and_scrape fuel keyword district pages st
  = search_and_scrape fuel keyword district pages' st.
Proof. unfold search_and_scrape. reflexivity. Qed.

End LoaderFacts.

(* ------------------------------------------------------------------ *)
(** ** The scroll loop, the other way round *)

Section ScrollLoopFacts.
Context `{Platform}.

(** X7.  The variables a pass hands to the next one: either the height
    has changed and the counter is zero, or the height is the same and the
    counter is one more, and still within the threshold.  The loop never
    starts a pass with a counter above 10. *)
Theorem scroll_pass_counter (el : WebElement) (last h : Z) (a a' : nat)
    (st st' : state) :
  scroll_pass el (last, a) st = Some (Ok (Some (h, a')), st') ->
  a' <= max_scroll_attempts
  /\ ((h <> last /\ a' = 0) \/ (h = last /\ a' = S a)).
Proof.
  rewrite scroll_pass_run.
  destruct (scroll_and_measure el (browser st)) as [[new|e] w];
    [|discriminate].
  destruct (Z.eqb_spec new last) as [Heq|Hne].
  - destruct (max_scroll_attempts <? S a) eqn:L; [discriminate|].
    intros E. injection E as <- <- _. apply Nat.ltb_ge in L. auto.
  - intros E. injection E as <- <- _. unfold max_scroll_attempts.
    split; [lia | auto].
Qed.

Lemma loop_exit_stalled (el : WebElement) (fuel : nat) :
  forall (last : Z) (a : nat) (st st' : state),
    a <= max_scroll_attempts ->
    scroll_loop fuel el (last, a) st = Some (Ok tt, st') ->
    exists k,
      k <= fuel
      /\ st' = mk_state (world_after el k (browser st)) (files st)
                 (log st ++ [stop_line])
      /\ ((k + a = 11 /\ forall i, i < k -> reading el i (browser st) = Ok last)
          \/ exists h,
               12 <= k
               /\ reading el (k - 12) (browser st) = Ok h
               /\ forall i, k - 11 <= i < k ->
                    reading el i (browser st) = Ok h).
Proof.
  unfold max_scroll_attempts.
  induction fuel as [|fuel IH]; intros last a st st' Ha Hrun; [discriminate|].
  rewrite scroll_loop_S, scroll_pass_run in Hrun.
  destruct (scroll_and_measure el (browser st)) as [[new|e] w1] eqn:Hm;
    [|discriminate].
  assert (R0 : reading el 0 (browser st) = Ok new).
  { unfold reading. simpl. now rewrite Hm. }
  assert (RS : forall i, reading el (S i) (browser st) = reading el i w1).
  { intros i. unfold reading. simpl. now rewrite Hm. }
  assert (WS : forall k, world_after el (S k) (browser st) = world_after el k w1).
  { intros k. simpl. now rewrite Hm. }
  assert (Hshift : forall k' h,
            12 <= k' ->
            reading el (k' - 12) w1 = Ok h ->
            (forall i, k' - 11 <= i < k' -> reading el i w1 = Ok h) ->
            reading el (S k' - 12) (browser st) = Ok h
            /\ forall i, S k' - 11 <= i < S k' ->
                 reading el i (browser st) = Ok h).
  { intros k' h Hk Hr Hall. split.
    - replace (S k' - 12) with (S (k' - 12)) by lia. now rewrite RS.
    - intros [|i] Hi; [lia|]. rewrite RS. apply Hall. lia. }
  unfold max_scroll_attempts in Hrun.
  destruct (Z.eqb_spec new last) as [Heq|Hne]; cbv beta iota in Hrun.
  - destruct (10 <? S a) eqn:L; cbv beta iota in Hrun.
    + injection Hrun as <-. apply Nat.ltb_lt in L.
      exists 1. split; [lia|]. split; [now rewrite WS|].
      left. split; [lia|]. intros [|i] Hi; [congruence | lia].
    + apply Nat.ltb_ge in L.
      destruct (IH new (S a) _ _ L Hrun) as (k & Hk & Hst & Hcase).
      exists (S k). split; [lia|]. split; [now rewrite WS|].
      destruct Hcase as [[Hsum Hall]|(h & Hk12 & Hr & Hall)].
      * left. split; [lia|]. intros [|i] Hi; [congruence|].
        rewrite RS, <- Heq. apply Hall. lia.
      * right. exists h. split; [lia|]. now apply Hshift.
  - destruct (IH new 0 _ _ (Nat.le_0_l 10) Hrun) as (k & Hk & Hst & Hcase).
    exists (S k). split; [lia|]. split; [now rewrite WS|].
    right. destruct Hcase as [[Hsum Hall]|(h & Hk12 & Hr & Hall)].
    + exists new. split; [lia|]. replace (S k - 12) with 0 by lia.
      split; [exact R0|]. intros [|i] Hi; [lia|].
      rewrite RS. apply Hall. lia.
    + exists h. split; [lia|]. now apply Hshift.
Qed.

(** X6.  The loop does not stop early.  When it ends without an
    exception, having started with a counter at zero, it has made [k >= 11]
    passes, and the last eleven of them all measured the height the loop
    held before them; it has logged that it stops and nothing else. *)
Theorem scroll_loop_exit_means_stalled (el : WebElement) (fuel : nat)
    (last : Z) (st st' : state) :
  scroll_loop fuel el (last, 0) st = Some (Ok tt, st') ->
  exists k h,
    11 <= k <= fuel
    /\ height_before el last (k - 11) (browser st) = Ok h
    /\ (forall i, k - 11 <= i < k -> reading el i (browser st) = Ok h)
    /\ st' = mk_state (world_after el k (browser st)) (files st)
               (log st ++ [stop_line]).
Proof.
  intros Hrun.
  destruct (loop_exit_stalled el fuel last 0 st st' (Nat.le_0_l _) Hrun)
    as (k & Hk & Hst & [[Hsum Hall]|(h & Hk12 & Hr & Hall)]).
  - exists k, last. replace (k - 11) with 0 by lia.
    repeat split; try lia; try assumption.
    intros i Hi. apply Hall. lia.
  - exists k, h. replace (k - 11) with (S (k - 12)) by lia.
    repeat split; try lia; try assumption.
    intros i Hi. apply Hall. lia.
Qed.

End ScrollLoopFacts.

(* ------------------------------------------------------------------ *)
(** ** The extractor, record by record *)

Lemma lstrip_suffix (s : pystr) : exists p, s = p ++ lstrip s.
Proof.
  induction s as [|c s [p Hp]]; simpl.
  - now exists [].
  - destruct (isspace c).
    + exists (c :: p). simpl. now f_equal.
    + now exists [].
Qed.

Lemma lstrip_head (s rest : pystr) (c : N) :
  lstrip s = c :: rest -> isspace c = false.
Proof.
  induction s as [|x s IH]; simpl; [discriminate|].
  destruct (isspace x) eqn:E; [assumption|].
  intros Hs. injection Hs as <- _. exact E.
Qed.

Lemma rstrip_prefix (s : pystr) : exists p, s = rstrip s ++ p.
Proof.
  unfold rstrip. destruct (lstrip_suffix (rev s)) as [p Hp].
  exists (rev p). rewrite <- rev_app_distr, <- Hp. now rewrite rev_involutive.
Qed.

Lemma rstrip_last (s front : pystr) (c : N) :
  rstrip s = front ++ [c] -> isspace c = false.
Proof.
  unfold rstrip. intros Hs. apply (f_equal (@rev N)) in Hs.
  rewrite rev_involutive, rev_app_distr in Hs. simpl in Hs.
  exact (lstrip_head _ _ _ Hs).
Qed.

(** What [strip] returns is a piece of its argument that neither starts
    nor ends with white space. *)
Lemma strip_spec (s : pystr) :
  (exists p q, s = p ++ strip s ++ q)
  /\ (forall c rest, strip s = c :: rest -> isspace c = false)
  /\ (forall front c, strip s = front ++ [c] -> isspace c = false).
Proof.
  unfold strip. destruct (rstrip_prefix s) as [q Hq].
  destruct (lstrip_suffix (rstrip s)) as [p Hp]. repeat split.
  - exists p, q. rewrite app_assoc, <- Hp. exact Hq.
  - intros c rest. apply lstrip_head.
  - intros front c Hs. rewrite Hs, app_assoc in Hp.
    exact (rstrip_last _ _ _ Hp).
Qed.

Lemma in_split_last (c : N) (s : pystr) :
  In c s -> exists pre suf, s = pre ++ c :: suf /\ ~ In c suf.
Proof.
  induction s as [|x s IH]; intros Hin; [destruct Hin|].
  destruct (in_dec N.eq_dec c s) as [Hs|Hs].
  - destruct (IH Hs) as (pre & suf & -> & Hsuf).
    exists (x :: pre), suf. auto.
  - destruct Hin as [->|Hin]; [|contradiction].
    exists [], s. auto.
Qed.

Section ExtractorFacts.
Context `{Platform} `{HtmlParser}.

(** X10.  When the text of the address container holds a middle dot, the
    address of the record is a piece of that text which holds no middle dot
    and neither starts nor ends with white space. *)
Theorem extract_address_clean (district keyword : pystr) (listing t : Tag) :
  find listing (py "div") (class_ (py "W4Efsd")) = Some t ->
  In 183%N (text t) ->
  exists address,
    Dict.get (py "address") (extract district keyword listing) = Some address
    /\ (exists p q, text t = p ++ address ++ q)
    /\ ~ In 183%N address
    /\ (forall c rest, address = c :: rest -> isspace c = false)
    /\ (forall front c, address = front ++ [c] -> isspace c = false).
Proof.
  intros Hfind Hdot.
  destruct (in_split_last _ _ Hdot) as (pre & suf & Ht & Hsuf).
  assert (Haddr : address_of (find listing (py "div") (class_ (py "W4Efsd")))
                  = strip suf).
  { rewrite Hfind. unfold address_of, split, middle_dot. rewrite Ht.
    destruct (split_last 183%N [] pre suf Hsuf) as [Hlast Hlen].
    apply Nat.ltb_lt in Hlen. now rewrite Hlen, Hlast. }
  exists (strip suf). rewrite extract_shape, Haddr.
  destruct (strip_spec suf) as ((p & q & Hpq) & Hhead & Hlast).
  split; [reflexivity|]. split; [|split; [|split]]; try assumption.
  - exists (pre ++ 183%N :: p), q. rewrite Ht, Hpq at 1.
    now rewrite <- app_assoc.
  - intros Hin. apply Hsuf. rewrite Hpq.
    apply in_or_app. right. apply in_or_app. now left.
Qed.

Lemma name_of_has_name (district keyword : pystr) (listing : Tag) :
  has_name (extract district keyword listing) = true
  <-> name_text listing <> sentinel.
Proof.
  rewrite has_name_extract, negb_true_iff. apply eqb_neq.
Qed.

(** X8.  Every record [parse_results] returns has the five keys name,
    phone, address, district, category, in this order, the district and the
    keyword of the call under the last two, and a name that is not
    ['N/A']. *)
Theorem parse_results_records (page_source district keyword : pystr)
    (st st' : state) (businesses : list dict) :
  parse_results page_source district keyword st = Some (Ok businesses, st') ->
  Forall
    (fun d =>
       Dict.keys d = expected_columns
       /\ Dict.get (py "district") d = Some district
       /\ Dict.get (py "category") d = Some keyword
       /\ exists name,
            Dict.get (py "name") d = Some name /\ name <> py "N/A")
    businesses.
Proof.
  rewrite parse_results_run. intros E. injection E as <- _.
  rewrite parse_listings_filter. apply Forall_forall. intros d Hd.
  apply in_map_iff in Hd as (l & <- & Hl). apply filter_In in Hl as [_ Hn].
  apply name_of_has_name in Hn. rewrite extract_shape.
  repeat split. exists (name_text l). split; [reflexivity | exact Hn].
Qed.


(** X11.  A candidate with a name element whose text is not ['N/A'] gives
    a record, under that text as its name, also when the text is empty. *)
Theorem parse_results_keeps_named (page_source district keyword : pystr)
    (st : state) (listing t : Tag) :
  In listing (listings_of (BeautifulSoup page_source)) ->
  find listing (py "div") (class_ (py "qBF1Pd")) = Some t ->
  text t <> py "N/A" ->
  exists businesses st',
    parse_results page_source district keyword st = Some (Ok businesses, st')
    /\ In (extract district keyword listing) businesses
    /\ Dict.get (py "name") (extract district keyword listing) = Some (text t).
Proof.
  intros Hin Hfind Htext.
  assert (Hname : name_text listing = text t).
  { unfold name_text. now rewrite Hfind. }
  do 2 eexists. split; [apply parse_results_run|]. split.
  - rewrite parse_listings_filter. apply in_map, filter_In.
    split; [assumption|]. apply name_of_has_name. now rewrite Hname.
  - rewrite extract_shape, Hname. reflexivity.
Qed.

End ExtractorFacts.

(* ------------------------------------------------------------------ *)
(** ** The written file, further *)

Lemma first_records_length (ds : list dict) :
  forall seen, List.length (first_records seen ds) <= List.length ds.
Proof.
  induction ds as [|d ds IH]; intros seen; simpl; [lia|].
  destruct (in_dec pair_eq_dec (pair_of d) seen); simpl.
  - specialize (IH seen). lia.
  - specialize (IH (pair_of d :: seen)). lia.
Qed.

Lemma first_records_head (d : dict) (ds : list dict) :
  exists rest, first_records [] (d :: ds) = d :: rest.
Proof. simpl. eexists. reflexivity. Qed.

Lemma first_records_distinct (ds : list dict) :
  forall seen,
    NoDup (map pair_of ds) ->
    (forall d, In d ds -> ~ In (pair_of d) seen) ->
    first_records seen ds = ds.
Proof.
  induction ds as [|x ds IH]; intros seen Hnd Hfresh; [reflexivity|].
  simpl in *. inversion Hnd as [|? ? Hx Hnd']; subst.
  destruct (in_dec pair_eq_dec (pair_of x) seen) as [Hin|Hout].
  - exfalso. apply (Hfresh x); auto.
  - f_equal. apply IH; [assumption|].
    intros d Hd [E|Hs].
    + apply Hx. rewrite E. now apply in_map.
    + apply (Hfresh d); auto.
Qed.

Lemma pair_row (d d' : dict) :
  pair_of d = pair_of d' ->
  name_address (row_of d) = name_address (row_of d').
Proof.
  rewrite !name_address_row_of. unfold pair_of. intros E.
  injection E as -> ->. reflexivity.
Qed.

Lemma NoDup_map_eq {A B} (f : A -> B) (l : list A) (a b : A) :
  NoDup (map f l) -> In a l -> In b l -> f a = f b -> a = b.
Proof.
  induction l as [|x l IH]; intros Hnd Ha Hb E; [destruct Ha|].
  simpl in Hnd. inversion Hnd as [|? ? Hx Hnd']; subst.
  destruct Ha as [->|Ha], Hb as [->|Hb]; auto.
  - exfalso. apply Hx. rewrite E. now apply in_map.
  - exfalso. apply Hx. rewrite <- E. now apply in_map.
Qed.

(** The rows written for records with a name and an address have distinct
    pairs. *)
Lemma saved_csv_unique (bs : list dict) :
  Forall keyed bs -> NoDup (map name_address (body (saved_csv bs))).
Proof.
  intros Hkeyed. rewrite Forall_forall in Hkeyed.
  unfold saved_csv. cbn [body]. rewrite map_map.
  apply (NoDup_map_transfer pair_of (fun d => name_address (row_of d))).
  - intros x y Hx Hy. apply keyed_pair; apply Hkeyed;
      eapply first_records_incl; eassumption.
  - apply first_records_NoDup.
Qed.

Section SavingFacts.
Context `{Platform}.

(** X13.  The number in the line [save_to_csv] logs is the number of rows
    it has written; for a list that is not empty it is at least one and at
    most the number of records. *)
Theorem save_to_csv_count (bs : list dict) (filename : pystr) (st : state) :
  bs <> [] ->
  exists st' content,
    save_to_csv bs filename st = Some (Ok tt, st')
    /\ Dict.get filename (files st') = Some content
    /\ log st'
       = log st
         ++ [(INFO,
              [9989%N] ++ py " Saved "
              ++ str_of_nat (List.length (body content))
              ++ py " unique businesses to " ++ filename)]
    /\ 1 <= List.length (body content) <= List.length bs.
Proof.
  intros Hne. eexists. exists (saved_csv bs).
  split; [apply save_to_csv_run; assumption|].
  split; [apply get_set_same|].
  unfold saved_csv, saved_line. cbn [body log]. rewrite length_map.
  split; [reflexivity|]. split; [|apply first_records_length].
  destruct bs as [|d ds]; [contradiction|].
  destruct (first_records_head d ds) as [rest ->]. simpl. lia.
Qed.

(** X14.  Deduplication loses no pair: for every record of a list that is
    not empty, the file has a row with the name and the address of that
    record. *)
Theorem save_to_csv_complete (bs : list dict) (filename : pystr) (st : state) :
  bs <> [] ->
  exists st' content,
    save_to_csv bs filename st = Some (Ok tt, st')
    /\ Dict.get filename (files st') = Some content
    /\ forall d,
         In d bs ->
         exists row,
           In row (body content)
           /\ name_address row = name_address (row_of d).
Proof.
  intros Hne. eexists. exists (saved_csv bs).
  split; [apply save_to_csv_run; assumption|].
  split; [apply get_set_same|].
  intros d Hd. unfold saved_csv. cbn [body].
  destruct (first_records_covers bs [] d Hd) as [[]|(d' & Hd' & E)].
  exists (row_of d'). split; [now apply in_map | now apply pair_row].
Qed.

(** X15.  When no two records of the list have the same pair, nothing is
    dropped: the rows of the file are the rows of the records, one for one
    and in order. *)
Theorem save_to_csv_distinct (bs : list dict) (filename : pystr) (st : state) :
  bs <> [] ->
  NoDup (map pair_of bs) ->
  exists st' content,
    save_to_csv bs filename st = Some (Ok tt, st')
    /\ Dict.get filename (files st') = Some content
    /\ body content = map row_of bs.
Proof.
  intros Hne Hnd. eexists. exists (saved_csv bs).
  split; [apply save_to_csv_run; assumption|].
  split; [apply get_set_same|].
  unfold saved_csv. cbn [body].
  rewrite first_records_distinct; auto.
Qed.

(** X16.  A record without the address key is not the duplicate of a
    record of the same name whose address is the empty string: the frame
    holds NaN for the one and the empty string for the other, both rows are
    kept, and in the file, where NaN is written as nothing, they have the
    same name and address. *)
Theorem save_to_csv_missing_key (bs : list dict) (filename : pystr)
    (st : state) (d1 d2 : dict) :
  In d1 bs -> In d2 bs ->
  Dict.get (py "name") d1 = Dict.get (py "name") d2 ->
  Dict.get (py "address") d1 = Some [] ->
  Dict.get (py "address") d2 = None ->
  exists st' content,
    save_to_csv bs filename st = Some (Ok tt, st')
    /\ Dict.get filename (files st') = Some content
    /\ ~ NoDup (map name_address (body content)).
Proof.
  intros H1 H2 Hname Ha1 Ha2.
  assert (Hne : bs <> []) by (intros ->; destruct H1).
  eexists. exists (saved_csv bs).
  split; [apply save_to_csv_run; assumption|].
  split; [apply get_set_same|].
  unfold saved_csv. cbn [body]. rewrite map_map. intros Hnd.
  destruct (first_records_covers bs [] d1 H1) as [[]|(k1 & Hk1 & E1)].
  destruct (first_records_covers bs [] d2 H2) as [[]|(k2 & Hk2 & E2)].
  assert (Hrows : name_address (row_of k1) = name_address (row_of k2)).
  { rewrite (pair_row k1 d1 E1), (pair_row k2 d2 E2).
    rewrite !name_address_row_of, Hname, Ha1, Ha2. reflexivity. }
  pose proof (NoDup_map_eq (fun d => name_address (row_of d)) _ k1 k2
                Hnd Hk1 Hk2 Hrows) as Hsame.
  subst k2. rewrite E1 in E2. unfold pair_of in E2.
  rewrite Ha1, Ha2 in E2. discriminate.
Qed.

End SavingFacts.

(* ------------------------------------------------------------------ *)
(** ** The run of [main] *)

Section Ensures.
Context `{Platform}.

Lemma ensures_ret {A} (a : A) (Q : A -> Prop) : Q a -> ensures (ret a) Q.
Proof. intros Hq st a' st' E. injection E as <- _. exact Hq. Qed.

Lemma ensures_bind {A B} (m : M A) (f : A -> M B) (P : A -> Prop)
    (Q : B -> Prop) :
  ensures m P -> (forall a, P a -> ensures (f a) Q) -> ensures (bind m f) Q.
Proof.
  intros Hm Hf st b st' E. unfold bind in E.
  destruct (m st) as [[[a|e] st1]|] eqn:Em; try discriminate.
  exact (Hf a (Hm _ _ _ Em) _ _ _ E).
Qed.

Lemma ensures_then {A B} (m : M A) (f : A -> M B) (Q : B -> Prop) :
  (forall a, ensures (f a) Q) -> ensures (bind m f) Q.
Proof.
  intros Hf. apply (ensures_bind m f (fun _ => True)); [easy | auto].
Qed.

Lemma ensures_try_except {A} (m : M A) (handler : exn -> M A)
    (Q : A -> Prop) :
  ensures m Q -> (forall e, ensures (handler e) Q) ->
  ensures (try_except m handler) Q.
Proof.
  intros Hm Hh st a st' E. unfold try_except in E.
  destruct (m st) as [[[a0|e] st1]|] eqn:Em; try discriminate.
  - injection E as <- _. exact (Hm _ _ _ Em).
  - exact (Hh e _ _ _ E).
Qed.

Lemma ensures_for_in {A S} (xs : list A) (body : A -> S -> M S)
    (Inv : S -> Prop) :
  (forall x acc, In x xs -> Inv acc -> ensures (body x acc) Inv) ->
  forall acc, Inv acc -> ensures (for_in xs acc body) Inv.
Proof.
  induction xs as [|x xs IH]; intros Hbody acc Hacc; simpl.
  - now apply ensures_ret.
  - apply (ensures_bind _ _ Inv).
    + apply Hbody; [now left | assumption].
    + intros acc' Hacc'. apply IH; [|assumption].
      intros y acc0 Hy. apply Hbody. now right.
Qed.

End Ensures.

Section MainFacts.
Context `{Platform} `{HtmlParser}.

Lemma ensures_parse_results (page_source district keyword : pystr) :
  ensures (parse_results page_source district keyword)
    (Forall (extracted district keyword)).
Proof.
  intros st bs st' E. rewrite parse_results_run in E. injection E as <- _.
  rewrite parse_listings_filter. apply Forall_forall. intros d Hd.
  apply in_map_iff in Hd as (l & <- & Hl). apply filter_In in Hl as [_ Hn].
  exists l. split; [reflexivity | now apply name_of_has_name in Hn].
Qed.

(** What [search_and_scrape] returns was extracted, for its district and
    its keyword, from candidates of the page. *)
Lemma ensures_search_and_scrape (fuel : nat) (keyword district : pystr)
    (pages : Z) :
  ensures (search_and_scrape fuel keyword district pages)
    (Forall (extracted district keyword)).
Proof.
  unfold search_and_scrape.
  do 4 (apply ensures_then; intros ?).
  apply (ensures_bind _ _ (Forall (extracted district keyword)));
    [|intros bs Hbs; now apply ensures_ret].
  apply ensures_try_except.
  - do 4 (apply ensures_then; intros ?).
    apply ensures_then; intros page_source.
    apply ensures_parse_results.
  - intros e. apply ensures_then; intros _. apply ensures_ret. constructor.
Qed.

Lemma ensures_collect (fuel : nat) :
  ensures (collect fuel) (Forall collected).
Proof.
  unfold collect.
  apply ensures_for_in; [|constructor].
  intros district acc Hd Hacc. apply ensures_then; intros _.
  apply ensures_for_in; [|assumption].
  intros keyword acc' Hk Hacc'. apply ensures_then; intros _.
  apply (ensures_bind _ _ (Forall (extracted district keyword)));
    [apply ensures_search_and_scrape|].
  intros bs Hbs.
  apply (ensures_bind _ _ (Forall collected));
    [|intros all Hall; apply ensures_then; intros _; now apply ensures_ret].
  assert (Hnew : Forall collected bs).
  { eapply Forall_impl; [|exact Hbs]. intros d Hx.
    exists district, keyword. auto. }
  destruct bs; apply ensures_then; intros _; apply ensures_ret;
    [assumption | apply Forall_app; auto].
Qed.

Lemma collected_record (d : dict) :
  collected d ->
  keyed d
  /\ Dict.keys d = expected_columns
  /\ Dict.get (py "district") d = Some (py "Dhaka")
  /\ (exists keyword,
        In keyword keywords /\ Dict.get (py "category") d = Some keyword)
  /\ exists name, Dict.get (py "name") d = Some name /\ name <> py "N/A".
Proof.
  intros (district & keyword & Hd & Hk & l & -> & Hn).
  destruct Hd as [<-|[]]. rewrite extract_shape.
  split; [split; discriminate|]. repeat split.
  - exists keyword. split; [assumption | reflexivity].
  - exists (name_text l). split; [reflexivity | exact Hn].
Qed.

(** X19.  Every record [main] accumulates has the five keys in order,
    the district ['Dhaka'], one of the four keywords of [main] as its
    category, and a name that is not ['N/A']. *)
Theorem collect_records (fuel : nat) (st st' : state)
    (all_businesses : list dict) :
  collect fuel st = Some (Ok all_businesses, st') ->
  Forall
    (fun d =>
       Dict.keys d = expected_columns
       /\ Dict.get (py "district") d = Some (py "Dhaka")
       /\ (exists keyword,
             In keyword keywords /\ Dict.get (py "category") d = Some keyword)
       /\ exists name, Dict.get (py "name") d = Some name /\ name <> py "N/A")
    all_businesses.
Proof.
  intros Hc. eapply Forall_impl; [|exact (ensures_collect fuel _ _ _ Hc)].
  intros d Hd. now apply collected_record in Hd.
Qed.

(** [main] once the driver has started. *)
Lemma main_started (fuel : nat) (st st1 : state) :
  setup_selenium_driver st = Some (Ok tt, st1) ->
  main fuel st
  = try_finally
      (try_except
         (bind (collect fuel) persist)
         (fun e => logger (fst (critical_line e)) (snd (critical_line e))))
      (bind close (fun _ => logger (fst closed_line) (snd closed_line)))
      st1.
Proof.
  intros Hsetup. unfold main, bind at 1. rewrite Hsetup. reflexivity.
Qed.

Lemma setup_files (st st1 : state) (r : outcome unit) :
  setup_selenium_driver st = Some (r, st1) -> files st1 = files st.
Proof. apply keeps_files_setup. Qed.

(** X17.  When a query raises (which navigation can make it do), [main]
    stops searching: it logs the exception as CRITICAL, writes no file, so
    that what earlier queries had found is lost, and still closes the
    browser. *)
Theorem main_query_failure (fuel : nat) (st st1 st2 : state) (e : exn) :
  setup_selenium_driver st = Some (Ok tt, st1) ->
  collect fuel st1 = Some (Raise e, st2) ->
  main fuel st
  = match driver_quit (browser st2) with
    | (Ok _, w) =>
        Some (Ok tt,
              mk_state w (files st) (log st2 ++ [critical_line e; closed_line]))
    | (Raise e', w) =>
        Some (Raise e', mk_state w (files st) (log st2 ++ [critical_line e]))
    end.
Proof.
  intros Hsetup Hcollect.
  assert (Hfiles : files st2 = files st).
  { rewrite (keeps_files_collect _ _ _ _ Hcollect).
    exact (setup_files _ _ _ Hsetup). }
  rewrite (main_started fuel st st1 Hsetup).
  unfold try_finally, try_except, bind at 1. rewrite Hcollect.
  unfold logger at 1, close, bind, call, logger. cbn [browser files log fst snd].
  rewrite Hfiles.
  destruct (driver_quit (browser st2)) as [[[]|e'] w]; cbn [browser files log].
  - rewrite <- app_assoc. reflexivity.
  - reflexivity.
Qed.

(** [main] once the queries have found something. *)
Lemma main_persists (fuel : nat) (st st1 st2 : state)
    (all_businesses : list dict) :
  setup_selenium_driver st = Some (Ok tt, st1) ->
  collect fuel st1 = Some (Ok all_businesses, st2) ->
  all_businesses <> [] ->
  let filename := csv_name (strftime (py "%Y%m%d_%H%M%S") (browser st2)) in
  main fuel st
  = match driver_quit (browser st2) with
    | (Ok _, w) =>
        Some (Ok tt,
              mk_state w
                (Dict.set filename (saved_csv all_businesses) (files st))
                (log st2 ++ [saved_line all_businesses filename; closed_line]))
    | (Raise e', w) =>
        Some (Raise e',
              mk_state w
                (Dict.set filename (saved_csv all_businesses) (files st))
                (log st2 ++ [saved_line all_businesses filename]))
    end.
Proof.
  intros Hsetup Hcollect Hne filename.
  assert (Hfiles : files st2 = files st).
  { rewrite (keeps_files_collect _ _ _ _ Hcollect).
    exact (setup_files _ _ _ Hsetup). }
  rewrite (main_started fuel st st1 Hsetup).
  unfold try_finally, try_except, bind at 1. rewrite Hcollect.
  assert (Hpersist :
    persist all_businesses st2
    = save_to_csv all_businesses filename st2).
  { destruct all_businesses; [contradiction | reflexivity]. }
  rewrite Hpersist, (save_to_csv_run all_businesses filename st2 Hne).
  unfold close, bind, call, logger. cbn [browser files log fst snd].
  rewrite Hfiles.
  destruct (driver_quit (browser st2)) as [[[]|e'] w]; cbn [browser files log].
  - rewrite <- app_assoc. reflexivity.
  - reflexivity.
Qed.

(** X18.  When the queries have found something, [main] writes one file,
    named after the time at which the searching ended, with the rows
    [save_to_csv] writes for the accumulated list, and then closes the
    browser. *)
Theorem main_writes_file (fuel : nat) (st st1 st2 : state)
    (all_businesses : list dict) :
  setup_selenium_driver st = Some (Ok tt, st1) ->
  collect fuel st1 = Some (Ok all_businesses, st2) ->
  all_businesses <> [] ->
  let filename := csv_name (strftime (py "%Y%m%d_%H%M%S") (browser st2)) in
  main fuel st
  = match driver_quit (browser st2) with
    | (Ok _, w) =>
        Some (Ok tt,
              mk_state w
                (Dict.set filename (saved_csv all_businesses) (files st))
                (log st2 ++ [saved_line all_businesses filename; closed_line]))
    | (Raise e', w) =>
        Some (Raise e',
              mk_state w
                (Dict.set filename (saved_csv all_businesses) (files st))
                (log st2 ++ [saved_line all_businesses filename]))
    end.
Proof.
  intros Hsetup Hcollect Hne filename.
  now apply (main_persists fuel st st1 st2 all_businesses).
Qed.

(** X20.  The file [main] writes has the five columns in order and no
    two rows with the same name and address: the records [main]
    accumulates all carry a name and an address. *)
Theorem main_file_unique (fuel : nat) (st st1 st2 : state)
    (all_businesses : list dict) :
  setup_selenium_driver st = Some (Ok tt, st1) ->
  collect fuel st1 = Some (Ok all_businesses, st2) ->
  all_businesses <> [] ->
  exists r st' content,
    main fuel st = Some (r, st')
    /\ Dict.get (csv_name (strftime (py "%Y%m%d_%H%M%S") (browser st2)))
         (files st')
       = Some content
    /\ header content = expected_columns
    /\ NoDup (map name_address (body content)).
Proof.
  intros Hsetup Hcollect Hne.
  rewrite (main_persists fuel st st1 st2 all_businesses Hsetup Hcollect Hne).
  assert (Hkeyed : Forall keyed all_businesses).
  { eapply Forall_impl; [|exact (ensures_collect fuel _ _ _ Hcollect)].
    intros d Hd. now apply collected_record in Hd. }
  destruct (driver_quit (browser st2)) as [[[]|e'] w];
    do 2 eexists; exists (saved_csv all_businesses);
    (split; [reflexivity|]); cbn [files];
    (split; [apply get_set_same|]);
    (split; [reflexivity | now apply saved_csv_unique]).
Qed.

(** X21.  Once the driver has started, the only exception that leaves
    [main] is one that [driver.quit()] raises; and when [main] returns, the
    last line of its log says that the browser was closed. *)
Theorem main_only_quit_raises (fuel : nat) (st st1 : state)
    (r : outcome unit) (st' : state) :
  setup_selenium_driver st = Some (Ok tt, st1) ->
  main fuel st = Some (r, st') ->
  match r with
  | Raise e => exists w, fst (driver_quit w) = Raise e
  | Ok _ => exists before, log st' = before ++ [closed_line]
  end.
Proof.
  intros Hsetup. rewrite (main_started fuel st st1 Hsetup).
  unfold try_finally.
  destruct (try_except (bind (collect fuel) persist)
              (fun e => logger (fst (critical_line e)) (snd (critical_line e)))
              st1) as [[r1 st2]|] eqn:Hbody; [|discriminate].
  assert (Hr1 : exists a, r1 = Ok a).
  { eapply (never_raises_try_except (bind (collect fuel) persist));
      [|exact Hbody]. intros e. apply never_raises_logger. }
  destruct Hr1 as [[] ->].
  unfold bind, close, call, logger.
  destruct (driver_quit (browser st2)) as [[[]|e] w] eqn:Hquit;
    cbn [browser files log]; intros E; injection E as <- <-.
  - eexists. reflexivity.
  - exists (browser st2). now rewrite Hquit.
Qed.

End MainFacts.

(* ------------------------------------------------------------------ *)
(** ** The further properties on the scripted sessions *)

(** An equation between closed terms, checked by evaluation. *)
Ltac by_vm :=
  match goal with
  | |- ?a = ?b => vm_cast_no_check (@eq_refl _ b)
  end.

Lemma main_setup_failure_witness :
  @main (Flaky.platform (Raise Flaky.no_chrome) 0) Fixture.bs4 11
    (Flaky.start (Raise Flaky.no_chrome) 0 (Scripted.still []))
  = Some (Raise Flaky.no_chrome,
          @mk_state (Flaky.platform (Raise Flaky.no_chrome) 0)
            (Scripted.still []) []
            [(ERROR,
              py "Failed to initialize Selenium WebDriver: " ++ Flaky.no_chrome)]).
Proof.
  apply (@main_setup_failure (Flaky.platform (Raise Flaky.no_chrome) 0)
           Fixture.bs4 11
           (Flaky.start (Raise Flaky.no_chrome) 0 (Scripted.still []))
           Flaky.no_chrome (Scripted.still [])).
  reflexivity.
Defined.

(** The container goes stale on the third scroll: the page is not parsed,
    the query gives nothing. *)
Lemma search_and_scrape_query_failure_witness :
  @search_and_scrape (Flaky.platform (Ok tt) 3) Fixture.bs4 20
    (py "bike repair") (py "Dhaka") 5 Fixture2.flaky_start
  = Some (Ok [],
          @mk_state (Flaky.platform (Ok tt) 3)
            (Scripted.mk_session (Ok tt) (fun _ => 900%Z) 3 (py "results")) []
            ([navigating_line Fixture2.encoded; (INFO, consent_clicked)]
             ++ [@error_line (Flaky.platform (Ok tt) 3) (py "bike repair")
                   (py "Dhaka") Flaky.stale])).
Proof.
  apply (@search_and_scrape_query_failure (Flaky.platform (Ok tt) 3)
           Fixture.bs4 20 (py "bike repair") (py "Dhaka") 5
           Fixture2.flaky_start
           (@mk_state (Flaky.platform (Ok tt) 3)
              (Scripted.still (py "results")) []
              [navigating_line Fixture2.encoded; (INFO, consent_clicked)])
           (@mk_state (Flaky.platform (Ok tt) 3)
              (Scripted.mk_session (Ok tt) (fun _ => 900%Z) 3 (py "results")) []
              [navigating_line Fixture2.encoded; (INFO, consent_clicked)])
           Fixture2.encoded (Scripted.still (py "results")) Flaky.stale);
    by_vm.
Defined.

Lemma search_and_scrape_returns_list_witness :
  @search_and_scrape (Flaky.platform (Ok tt) 3) Fixture.bs4 20
    (py "bike repair") (py "Dhaka") 5 Fixture2.flaky_start
  = Some (Ok Fixture2.flaky_value, Fixture2.flaky_state)
  /\ exists businesses, @Ok (list dict) Fixture2.flaky_value = Ok businesses.
Proof.
  assert (Hrun :
    @search_and_scrape (Flaky.platform (Ok tt) 3) Fixture.bs4 20
      (py "bike repair") (py "Dhaka") 5 Fixture2.flaky_start
    = Some (Ok Fixture2.flaky_value, Fixture2.flaky_state))
    by by_vm.
  split; [exact Hrun|].
  refine (@search_and_scrape_returns_list (Flaky.platform (Ok tt) 3)
            Fixture.bs4 20 (py "bike repair") (py "Dhaka") 5
            Fixture2.flaky_start Fixture2.encoded (Scripted.still (py "results"))
            (Ok Fixture2.flaky_value) Fixture2.flaky_state _ _ Hrun);
    by_vm.
Defined.

Lemma search_and_scrape_writes_nothing_witness :
  @search_and_scrape Scripted.platform Fixture.bs4 11
    (py "bike repair") (py "Dhaka") 5 Fixture2.with_old_file
  = Some (Ok Fixture2.old_file_value, Fixture2.old_file_state)
  /\ files Fixture2.old_file_state = files Fixture2.with_old_file.
Proof.
  assert (Hrun :
    @search_and_scrape Scripted.platform Fixture.bs4 11
      (py "bike repair") (py "Dhaka") 5 Fixture2.with_old_file
    = Some (Ok Fixture2.old_file_value, Fixture2.old_file_state))
    by by_vm.
  split; [exact Hrun|].
  exact (@search_and_scrape_writes_nothing Scripted.platform Fixture.bs4 11
           (py "bike repair") (py "Dhaka") 5 Fixture2.with_old_file
           (Ok Fixture2.old_file_value) Fixture2.old_file_state Hrun).
Defined.

Lemma scroll_pass_counter_witness :
  0 <= max_scroll_attempts
  /\ ((1200%Z <> 900%Z /\ 0 = 0) \/ (1200%Z = 900%Z /\ 0 = 4)).
Proof.
  apply (@scroll_pass_counter Scripted.platform Scripted.feed 900%Z 1200%Z
           3 0 (Scripted.start Scripted.endless)
           (@mk_state Scripted.platform (Scripted.endless_at 1) [] [])).
  reflexivity.
Defined.

Lemma scroll_loop_exit_means_stalled_witness :
  exists k h,
    11 <= k <= 11
    /\ @height_before Scripted.platform Scripted.feed 900%Z (k - 11)
         (Scripted.still []) = Ok h
    /\ (forall i, k - 11 <= i < k ->
          @reading Scripted.platform Scripted.feed i (Scripted.still []) = Ok h)
    /\ @mk_state Scripted.platform
         (Scripted.mk_session (Ok tt) (fun _ => 900%Z) 11 []) [] [stop_line]
       = @mk_state Scripted.platform
           (@world_after Scripted.platform Scripted.feed k (Scripted.still []))
           [] ([] ++ [stop_line]).
Proof.
  apply (@scroll_loop_exit_means_stalled Scripted.platform Scripted.feed 11
           900%Z (Scripted.start (Scripted.still []))).
  reflexivity.
Defined.

Lemma extract_address_clean_witness :
  exists address,
    Dict.get (py "address")
      (@extract Fixture.bs4 (py "Dhaka") (py "bike repair") Fixture2.trailing)
    = Some address
    /\ (exists p q,
          py "Open " ++ middle_dot ++ py "  " = p ++ address ++ q)
    /\ ~ In 183%N address
    /\ (forall c rest, address = c :: rest -> isspace c = false)
    /\ (forall front c, address = front ++ [c] -> isspace c = false).
Proof.
  apply (@extract_address_clean Fixture.bs4 (py "Dhaka") (py "bike repair")
           Fixture2.trailing
           (Fixture.div "W4Efsd"
              [Soup.NavigableString (py "Open " ++ middle_dot ++ py "  ")])).
  - reflexivity.
  - vm_compute. do 5 right. left. reflexivity.
Defined.

Lemma parse_results_records_witness :
  Forall
    (fun d =>
       Dict.keys d = expected_columns
       /\ Dict.get (py "district") d = Some (py "Dhaka")
       /\ Dict.get (py "category") d = Some (py "motorcycle")
       /\ exists name,
            Dict.get (py "name") d = Some name /\ name <> py "N/A")
    Fixture2.distinct.
Proof.
  apply (@parse_results_records Scripted.platform Fixture.bs4 (py "results")
           (py "Dhaka") (py "motorcycle") (Scripted.start (Scripted.still []))
           (@mk_state Scripted.platform (Scripted.still []) []
              [(INFO, py "Found 4 potential business listings.")])
           Fixture2.distinct).
  reflexivity.
Defined.

Lemma parse_results_keeps_named_witness :
  exists businesses st',
    @parse_results Scripted.platform Fixture2.bs4 [] (py "Dhaka")
      (py "bike repair") (Scripted.start (Scripted.still []))
    = Some (Ok businesses, st')
    /\ In (@extract Fixture2.bs4 (py "Dhaka") (py "bike repair") Fixture2.blank)
         businesses
    /\ Dict.get (py "name")
         (@extract Fixture2.bs4 (py "Dhaka") (py "bike repair") Fixture2.blank)
       = Some [].
Proof.
  apply (@parse_results_keeps_named Scripted.platform Fixture2.bs4 []
           (py "Dhaka") (py "bike repair") (Scripted.start (Scripted.still []))
           Fixture2.blank (Fixture.div "qBF1Pd" [])).
  - vm_compute. right. left. reflexivity.
  - reflexivity.
  - vm_compute. discriminate.
Defined.

Lemma save_to_csv_count_witness :
  exists st' content,
    @save_to_csv Scripted.platform Fixture.accumulated (py "out.csv")
      (Scripted.start (Scripted.still [])) = Some (Ok tt, st')
    /\ Dict.get (py "out.csv") (files st') = Some content
    /\ log st'
       = log (Scripted.start (Scripted.still []))
         ++ [(INFO,
              [9989%N] ++ py " Saved "
              ++ str_of_nat (List.length (body content))
              ++ py " unique businesses to " ++ py "out.csv")]
    /\ 1 <= List.length (body content) <= List.length Fixture.accumulated.
Proof.
  apply (@save_to_csv_count Scripted.platform Fixture.accumulated
           (py "out.csv") (Scripted.start (Scripted.still []))).
  vm_compute. discriminate.
Defined.

Lemma save_to_csv_complete_witness :
  exists st' content,
    @save_to_csv Scripted.platform Fixture.accumulated (py "out.csv")
      (Scripted.start (Scripted.still [])) = Some (Ok tt, st')
    /\ Dict.get (py "out.csv") (files st') = Some content
    /\ forall d,
         In d Fixture.accumulated ->
         exists row,
           In row (body content)
           /\ name_address row = name_address (row_of d).
Proof.
  apply (@save_to_csv_complete Scripted.platform Fixture.accumulated
           (py "out.csv") (Scripted.start (Scripted.still []))).
  vm_compute. discriminate.
Defined.

Lemma save_to_csv_distinct_witness :
  exists st' content,
    @save_to_csv Scripted.platform Fixture2.distinct (py "out.csv")
      (Scripted.start (Scripted.still [])) = Some (Ok tt, st')
    /\ Dict.get (py "out.csv") (files st') = Some content
    /\ body content = map row_of Fixture2.distinct.
Proof.
  apply (@save_to_csv_distinct Scripted.platform Fixture2.distinct
           (py "out.csv") (Scripted.start (Scripted.still []))).
  - vm_compute. discriminate.
  - vm_compute. repeat constructor; simpl; intuition discriminate.
Defined.

Lemma save_to_csv_missing_key_witness :
  exists st' content,
    @save_to_csv Scripted.platform Fixture2.ragged (py "out.csv")
      (Scripted.start (Scripted.still [])) = Some (Ok tt, st')
    /\ Dict.get (py "out.csv") (files st') = Some content
    /\ ~ NoDup (map name_address (body content)).
Proof.
  apply (@save_to_csv_missing_key Scripted.platform Fixture2.ragged
           (py "out.csv") (Scripted.start (Scripted.still []))
           [(py "name", py "Dhaka Bikes"); (py "address", [])]
           [(py "name", py "Dhaka Bikes")]).
  - left. reflexivity.
  - right. left. reflexivity.
  - reflexivity.
  - reflexivity.
  - reflexivity.
Defined.

(** The file of the ragged list: the same row twice. *)
Example ragged_file :
  body (saved_csv Fixture2.ragged)
  = [[py "Dhaka Bikes"; []; []; []; []]; [py "Dhaka Bikes"; []; []; []; []]].
Proof. reflexivity. Qed.

Lemma main_query_failure_witness :
  @main Scripted.platform Fixture.bs4 11 Fixture2.offline_start
  = Some (Ok tt,
          @mk_state Scripted.platform Scripted.offline []
            (log Fixture2.offline_state
             ++ [critical_line Fixture2.offline_error; closed_line])).
Proof.
  refine (eq_trans
            (@main_query_failure Scripted.platform Fixture.bs4 11
               Fixture2.offline_start Fixture2.offline_start
               Fixture2.offline_state Fixture2.offline_error _ _) _);
    by_vm.
Defined.

Lemma main_writes_file_witness :
  @main Scripted.platform Fixture.bs4 11 Fixture2.results_start
  = Some (Ok tt,
          @mk_state Scripted.platform (browser Fixture2.collected_state)
            [(Fixture2.results_file, saved_csv Fixture2.collected_all)]
            (log Fixture2.collected_state
             ++ [saved_line Fixture2.collected_all Fixture2.results_file;
                 closed_line])).
Proof.
  refine (eq_trans
            (@main_writes_file Scripted.platform Fixture.bs4 11
               Fixture2.results_start Fixture2.results_start
               Fixture2.collected_state Fixture2.collected_all _ _ _) _);
    try by_vm.
  vm_compute. discriminate.
Defined.

Lemma collect_records_witness :
  List.length Fixture2.collected_all = 8
  /\ Forall
       (fun d =>
          Dict.keys d = expected_columns
          /\ Dict.get (py "district") d = Some (py "Dhaka")
          /\ (exists keyword,
                In keyword keywords
                /\ Dict.get (py "category") d = Some keyword)
          /\ exists name,
               Dict.get (py "name") d = Some name /\ name <> py "N/A")
       Fixture2.collected_all.
Proof.
  split; [by_vm|].
  apply (@collect_records Scripted.platform Fixture.bs4 11
           Fixture2.results_start Fixture2.collected_state
           Fixture2.collected_all).
  by_vm.
Defined.

Lemma main_file_unique_witness :
  exists r st' content,
    @main Scripted.platform Fixture.bs4 11 Fixture2.results_start
    = Some (r, st')
    /\ Dict.get
         (csv_name
            (@strftime Scripted.platform (py "%Y%m%d_%H%M%S")
               (browser Fixture2.collected_state)))
         (files st')
       = Some content
    /\ header content = expected_columns
    /\ NoDup (map name_address (body content)).
Proof.
  apply (@main_file_unique Scripted.platform Fixture.bs4 11
           Fixture2.results_start Fixture2.results_start
           Fixture2.collected_state Fixture2.collected_all);
    try by_vm.
  vm_compute. discriminate.
Defined.

Lemma main_only_quit_raises_witness :
  @main Scripted.platform Fixture.bs4 11 Fixture2.offline_start
  = Some (Ok tt, Fixture2.offline_end)
  /\ exists before, log Fixture2.offline_end = before ++ [closed_line].
Proof.
  assert (Hrun : @main Scripted.platform Fixture.bs4 11 Fixture2.offline_start
                 = Some (Ok tt, Fixture2.offline_end))
    by by_vm.
  split; [exact Hrun|].
  apply (@main_only_quit_raises Scripted.platform Fixture.bs4 11
           Fixture2.offline_start Fixture2.offline_start (Ok tt)
           Fixture2.offline_end);
    [by_vm | exact Hrun].
Defined.
